(** * CI helper scripts: commit-message checks and formatter dispatch

    A shallow embedding of [ci/check_mr_logs.py],
    [ci/code_format_helper.py] and [ci/typing_helper.py].

    Python [str] values are Stdlib strings; a character is read as the
    code point of the same number (0..255), and the character classes
    below are Python's on that range.  Exceptions are an explicit
    [result] type, printed output is a writer log; the external
    processes, the decoding of their output, the parsing of the command
    line and the iteration order of a Python [set] are Section
    variables. *)

From stdpp Require Import gmap strings.
From Stdlib Require Import String Ascii List ZArith Bool Lia Permutation DecimalString.
From Stdlib.Strings Require Import Byte.
Import ListNotations.
Open Scope string_scope.

#[local] Arguments String.append !_ _ / : simpl nomatch.

(** ** Characters *)

Module Char.

Definition code (c : ascii) : N := N_of_ascii c.

Definition between (lo hi : N) (c : ascii) : bool :=
  ((lo <=? code c) && (code c <=? hi))%N.

(** [str.isspace] for one character, as used by [str.strip()] and
    [str.split()] without argument. *)
Definition isspace (c : ascii) : bool :=
  between 9 13 c || between 28 32 c
  || (code c =? 133)%N || (code c =? 160)%N.

(** [[0-9]] *)
Definition isdigit (c : ascii) : bool := between 48 57 c.

(** [[A-Z0-9]] *)
Definition isupper_alnum (c : ascii) : bool :=
  between 65 90 c || isdigit c.

(** [\w] of the [re] module on [str] patterns. *)
Definition isword (c : ascii) : bool :=
  isdigit c || between 65 90 c || between 97 122 c || (code c =? 95)%N
  || (code c =? 170)%N || between 178 179 c || (code c =? 181)%N
  || between 185 186 c || between 188 190 c
  || between 192 214 c || between 216 246 c || between 248 255 c.

(** [.] of the [re] module without flags: anything but a line feed. *)
Definition isdot (c : ascii) : bool := negb (Ascii.eqb c "010").

End Char.

(** ** Python string primitives *)

Module Str.

(** [s.split(sep)] for a one-character separator. *)
Fixpoint split (sep : ascii) (s : string) : list string :=
  match s with
  | EmptyString => [EmptyString]
  | String c s' =>
      if Ascii.eqb c sep then EmptyString :: split sep s'
      else match split sep s' with
           | w :: ws => String c w :: ws
           | [] => [String c EmptyString]
           end
  end.

(** [s.startswith(p)] *)
Fixpoint startswith (s p : string) {struct p} : bool :=
  match p, s with
  | EmptyString, _ => true
  | String a p', String b s' => Ascii.eqb a b && startswith s' p'
  | String _ _, EmptyString => false
  end.

Fixpoint lstrip (s : string) : string :=
  match s with
  | EmptyString => EmptyString
  | String c s' => if Char.isspace c then lstrip s' else s
  end.

Fixpoint rstrip (s : string) : string :=
  match s with
  | EmptyString => EmptyString
  | String c s' =>
      match rstrip s' with
      | EmptyString => if Char.isspace c then EmptyString else String c EmptyString
      | r => String c r
      end
  end.

(** [s.strip()] *)
Definition strip (s : string) : string := rstrip (lstrip s).

(** [s.split()]: the maximal runs of non-whitespace characters. *)
Fixpoint split_ws (s : string) : list string :=
  match s with
  | EmptyString => []
  | String c s' =>
      if Char.isspace c then split_ws s'
      else match s' with
           | EmptyString => [String c EmptyString]
           | String c' _ =>
               if Char.isspace c' then String c EmptyString :: split_ws s'
               else match split_ws s' with
                    | w :: ws => String c w :: ws
                    | [] => [String c EmptyString]
                    end
           end
  end.

(** [s.strip(".")]-style stripping of one given character. *)
Fixpoint lstrip_char (x : ascii) (s : string) : string :=
  match s with
  | EmptyString => EmptyString
  | String c s' => if Ascii.eqb c x then lstrip_char x s' else s
  end.

Fixpoint rstrip_char (x : ascii) (s : string) : string :=
  match s with
  | EmptyString => EmptyString
  | String c s' =>
      match rstrip_char x s' with
      | EmptyString => if Ascii.eqb c x then EmptyString else String c EmptyString
      | r => String c r
      end
  end.

Definition strip_char (x : ascii) (s : string) : string :=
  rstrip_char x (lstrip_char x s).

(** [sep.join(l)] *)
Fixpoint join (sep : string) (l : list string) : string :=
  match l with
  | [] => EmptyString
  | [w] => w
  | w :: ws => w ++ sep ++ join sep ws
  end.

(** Truth value of a string: non-empty. *)
Definition truthy (s : string) : bool :=
  match s with EmptyString => false | _ => true end.

Fixpoint all (p : ascii -> bool) (s : string) : bool :=
  match s with
  | EmptyString => true
  | String c s' => p c && all p s'
  end.

End Str.

Definition LF : ascii := "010"%char.

(** A message given by its lines: the lines joined by line feeds. *)
Definition unlines (l : list string) : string := Str.join (String LF "") l.

(** ** The fragment of [re] the scripts use *)

Module Re.

(** The patterns of the source are sequences of literal characters,
    [X+] over a character class, and [$].  Groups do not change
    which strings match, and a leading [^] is implied by [re.match],
    which only matches at the start of the string. *)
Inductive item : Type :=
| Lit (c : ascii)
| Plus (p : ascii -> bool)
| Eos.

Definition pattern := list item.

(** [$] without flags: at the end, or just before a final line feed. *)
Definition at_end (s : string) : bool :=
  match s with
  | EmptyString => true
  | String c EmptyString => Ascii.eqb c LF
  | _ => false
  end.

(** [X+] followed by the continuation [k]: the longest run is tried
    first, shorter ones on backtracking. *)
Fixpoint plus_then (p : ascii -> bool) (k : string -> bool) (s : string) : bool :=
  match s with
  | EmptyString => false
  | String a s' => p a && (plus_then p k s' || k s')
  end.

(** [re.match(pat, s) is not None] *)
Fixpoint matches (pat : pattern) (s : string) : bool :=
  match pat with
  | [] => true
  | Lit c :: pat' =>
      match s with
      | String a s' => Ascii.eqb a c && matches pat' s'
      | EmptyString => false
      end
  | Plus p :: pat' => plus_then p (matches pat') s
  | Eos :: pat' => at_end s && matches pat' s
  end.

End Re.

(** ** Exceptions *)

(** The exceptions that occur: of an index out of range, of
    [bytes.decode], and of [subprocess.run] when the program cannot be
    started. *)
Inductive exn : Type :=
| IndexError
| UnicodeDecodeError
| OSError.

Inductive result (A : Type) : Type :=
| Ok (a : A)
| Raise (e : exn).
Arguments Ok {A} a.
Arguments Raise {A} e.

Definition bind {A B : Type} (r : result A) (k : A -> result B) : result B :=
  match r with
  | Ok a => k a
  | Raise e => Raise e
  end.

Notation "'let*' x ':=' r 'in' k" := (bind r (fun x => k))
  (at level 10, x name, r at level 100, k at level 200).

(** [l[i]] for a non-negative literal index. *)
Definition index {A : Type} (l : list A) (i : nat) : result A :=
  match nth_error l i with
  | Some x => Ok x
  | None => Raise IndexError
  end.

(** Truth value of a list: non-empty. *)
Definition nonempty {A : Type} (l : list A) : bool :=
  match l with [] => false | _ => true end.

(** ** check_mr_logs.py *)

Definition header_pattern : Re.pattern :=
  [Re.Plus Char.isword; Re.Lit "["; Re.Plus Char.isword; Re.Lit "]";
   Re.Lit ":"; Re.Lit " "; Re.Plus Char.isdot; Re.Eos].

Definition jira_pattern : Re.pattern :=
  [Re.Plus Char.isupper_alnum; Re.Lit "-"; Re.Plus Char.isdigit].

Definition msg_empty : string := "Empty commit message".
Definition msg_header : string :=
  "Invalid header format. Should be: <type>[<SCOPE>]: <short-summary>".
Definition msg_problem : string := "Missing 'Problem/Task:' section".
Definition msg_solution : string := "Missing 'Solution:' section".
Definition msg_test : string := "Missing 'Test:' section".
Definition msg_jira_missing : string := "Missing 'JIRA:' section".
Definition msg_jira_format : string :=
  "JIRA reference should be in format: <PROJ-123>".
Definition msg_author_missing : string := "Missing author or email".
Definition msg_author_email (author email : string) : string :=
  author ++ " " ++ email ++ ": email does not format: <username>@is.ic".

Definition check_header (commit_msg : string) : result (bool * string) :=
  let header_lines := List.filter Str.truthy (Str.split LF commit_msg) in
  if negb (nonempty header_lines) then Ok (false, msg_empty)
  else
    let* header := index header_lines 0 in
    if negb (Re.matches header_pattern header) then Ok (false, msg_header)
    else Ok (true, "").

(** A [for] loop that sets a flag and leaves at the first hit. *)
Fixpoint scan_break (hit : string -> bool) (lines : list string) : bool :=
  match lines with
  | [] => false
  | line :: rest => if hit line then true else scan_break hit rest
  end.

(** A [for] loop that sets a flag and goes on to the last line. *)
Fixpoint scan_continue (hit : string -> bool) (started : bool)
    (lines : list string) : bool :=
  match lines with
  | [] => started
  | line :: rest =>
      if hit line then scan_continue hit true rest
      else scan_continue hit started rest
  end.

Definition check_problem_task_section (commit_msg : string) : result (bool * string) :=
  let section_started :=
    scan_break (fun line => Str.startswith line "Problem:" || Str.startswith line "Task:")
      (Str.split LF commit_msg) in
  if negb section_started then Ok (false, msg_problem) else Ok (true, "").

Definition check_solution_section (commit_msg : string) : result (bool * string) :=
  let section_started :=
    scan_break (fun line => Str.startswith line "Solution:") (Str.split LF commit_msg) in
  if negb section_started then Ok (false, msg_solution) else Ok (true, "").

Definition check_test_section (commit_msg : string) : result (bool * string) :=
  let section_started :=
    scan_continue (fun line => Str.startswith line "Test:") false
      (Str.split LF commit_msg) in
  if negb section_started then Ok (false, msg_test) else Ok (true, "").

(** The loop of [check_jira_section]: the state is
    [(section_started, jira)], the first [JIRA:] line ends the loop. *)
Fixpoint jira_loop (lines : list string) : result (bool * string) :=
  match lines with
  | [] => Ok (false, "")
  | line :: rest =>
      if Str.startswith line "JIRA:" then
        let* field := index (Str.split ":" line) 1 in
        Ok (true, Str.strip field)
      else jira_loop rest
  end.

Definition check_jira_section (commit_msg : string) : result (bool * string) :=
  let* st := jira_loop (Str.split LF commit_msg) in
  let '(section_started, jira) := st in
  if negb section_started then Ok (false, msg_jira_missing)
  else if negb (Re.matches jira_pattern jira) then Ok (false, msg_jira_format)
  else Ok (true, "").

(** The loop of [check_author_email]: the state is
    [(section_started, author, email)], every [Author:] line
    overwrites it. *)
Fixpoint author_loop (st : bool * string * string) (lines : list string)
    : result (bool * string * string) :=
  match lines with
  | [] => Ok st
  | line :: rest =>
      if Str.startswith line "Author:" then
        let* a := index (Str.split_ws line) 1 in
        let* e := index (Str.split_ws line) 2 in
        author_loop (true, Str.strip a, Str.strip e) rest
      else author_loop st rest
  end.

Definition check_author_email (commit_msg : string) : result (bool * string) :=
  let* st := author_loop (false, "", "") (Str.split LF commit_msg) in
  let '(section_started, author, email) := st in
  if negb section_started then Ok (false, msg_author_missing)
  else if negb (String.eqb ("<" ++ author ++ "@is.ic>") email)
       then Ok (false, msg_author_email author email)
  else Ok (true, "").

Definition checks : list (string -> result (bool * string)) :=
  [check_header; check_problem_task_section; check_solution_section;
   check_test_section; check_jira_section; check_author_email].

(** The loop of [validate_commit] over the check functions. *)
Fixpoint run_checks (fs : list (string -> result (bool * string)))
    (commit_msg : string) (error_msgs : list string) : result (list string) :=
  match fs with
  | [] => Ok error_msgs
  | check_func :: rest =>
      let* r := check_func commit_msg in
      let '(is_valid, error_msg) := r in
      if negb is_valid then run_checks rest commit_msg (error_msgs ++ [error_msg])
      else run_checks rest commit_msg error_msgs
  end.

Definition validate_commit (commit_msg : string) : result (bool * list string) :=
  let* error_msgs := run_checks checks commit_msg [] in
  if nonempty error_msgs then Ok (false, error_msgs) else Ok (true, []).

Definition good_commit : string :=
  unlines ["feat[CORE]: add x"; ""; "Problem: p"; "Solution: s"; "Test: t";
           "JIRA: ABC-123"; "Author: jdoe <jdoe@is.ic>"].

(** ** Printed output *)

Module Out.

(** A computation that writes to standard output: its value and the
    chunks written, in order. *)
Definition t (A : Type) : Type := A * list string.

(** What [print(s)] writes: the text and a line feed. *)
Definition line (s : string) : string := s ++ String LF "".

(** [print(s)] *)
Definition print (s : string) : t unit := (tt, [line s]).

(** [sys.stdout.write(s)] *)
Definition write (s : string) : t unit := (tt, [s]).

End Out.

(** ** Scripts: how a run ends *)

(** A piece of a script runs to its end with a value, leaves through
    [sys.exit(code)], or is left by an exception nobody handles. *)
Inductive outcome (A : Type) : Type :=
| Done (a : A)
| Exit (code : Z)
| Uncaught (e : exn).
Arguments Done {A} a.
Arguments Exit {A} code.
Arguments Uncaught {A} e.

Module Proc.

(** How the piece ends, and what it has written until then. *)
Definition t (A : Type) : Type := outcome A * list string.

Definition ret {A : Type} (a : A) : t A := (Done a, []).

Definition bind {A B : Type} (m : t A) (k : A -> t B) : t B :=
  match m with
  | (Done a, o1) => let '(r, o2) := k a in (r, (o1 ++ o2)%list)
  | (Exit code, o1) => (Exit code, o1)
  | (Uncaught e, o1) => (Uncaught e, o1)
  end.

Definition of_out {A : Type} (m : Out.t A) : t A := (Done (fst m), snd m).

Definition of_result {A : Type} (r : result A) : t A :=
  match r with
  | Ok a => (Done a, [])
  | Raise e => (Uncaught e, [])
  end.

Definition print (s : string) : t unit := of_out (Out.print s).

(** [sys.stdout.write(s)] *)
Definition write (s : string) : t unit := of_out (Out.write s).

Definition when (b : bool) (m : t unit) : t unit :=
  if b then m else ret tt.

(** [sys.exit(code)] *)
Definition exit {A : Type} (code : Z) : t A := (Exit code, []).

End Proc.

Notation "'do*' x ':=' m 'in' k" := (Proc.bind m (fun x => k))
  (at level 10, x name, m at level 100, k at level 200).

(** The exit status of the interpreter: 0 at the end of the script,
    the argument of [sys.exit], 1 after an unhandled exception. *)
Definition exit_status {A : Type} (o : outcome A) : Z :=
  match o with
  | Done _ => 0%Z
  | Exit code => code
  | Uncaught _ => 1%Z
  end.

(** ** os.path.splitext (posixpath) *)

Module Path.

(** [p.rfind(c)] for a single character: the last index, or -1. *)
Fixpoint rfind (c : ascii) (p : string) : Z :=
  match p with
  | EmptyString => (-1)%Z
  | String a p' =>
      let r := rfind c p' in
      if (0 <=? r)%Z then (r + 1)%Z
      else if Ascii.eqb a c then 0%Z else (-1)%Z
  end.

(** [p[:n]] and [p[n:]] *)
Fixpoint take (n : nat) (p : string) : string :=
  match n, p with
  | S n', String a p' => String a (take n' p')
  | _, _ => EmptyString
  end.

Fixpoint drop (n : nat) (p : string) : string :=
  match n, p with
  | S n', String _ p' => drop n' p'
  | _, _ => p
  end.

(** The [while] loop of [genericpath._splitext]: is there a
    character other than the dot among the [count] characters from
    [filenameIndex] on? *)
Fixpoint has_name (p : string) (filenameIndex count : nat) : bool :=
  match count with
  | O => false
  | S count' =>
      match String.get filenameIndex p with
      | Some a =>
          if negb (Ascii.eqb a ".") then true
          else has_name p (S filenameIndex) count'
      | None => true
      end
  end.

Definition splitext (p : string) : string * string :=
  let sepIndex := rfind "/" p in
  let dotIndex := rfind "." p in
  if (sepIndex <? dotIndex)%Z
     && has_name p (Z.to_nat (sepIndex + 1)) (Z.to_nat (dotIndex - (sepIndex + 1)))
  then (take (Z.to_nat dotIndex) p, drop (Z.to_nat dotIndex) p)
  else (p, EmptyString).

End Path.

(** ** code_format_helper.py *)

Record FormatArgs : Type := {
  start_rev : option string;
  end_rev : option string;
  changed_files : option string;
  py_style_config : option string;
  verbose : bool
}.

(** Truth value of an [Optional[str]]. *)
Definition truthy_opt (o : option string) : bool :=
  match o with Some s => Str.truthy s | None => false end.

Definition opt_str (o : option string) : string :=
  match o with Some s => s | None => "None" end.

(** What [subprocess.run(cmd, stdout=PIPE, stderr=PIPE)] hands back
    when the program could be started: the exit code and the two
    captured streams, as bytes. *)
Record CompletedProcess : Type := {
  returncode : Z;
  stdout : list byte;
  stderr : list byte
}.

Definition str_of_int (z : Z) : string :=
  DecimalString.NilZero.string_of_int (Z.to_int z).

(** [x in tuple] *)
Definition in_tuple (x : string) (l : list string) : bool :=
  existsb (String.eqb x) l.

Definition clang_extensions : list string :=
  [".cpp"; ".c"; ".cc"; ".h"; ".hpp"; ".hxx"; ".cxx"; ".inc"; ".cppm"; ".cl"].

Definition should_include_extensionless_file (path : string) : bool :=
  Str.startswith path "libcxx/include".

(** [ClangFormatHelper.filter_changed_files]: the loop appends to
    [filtered_files]. *)
Fixpoint clang_filter_loop (changed : list string) (filtered_files : list string)
    : list string :=
  match changed with
  | [] => filtered_files
  | path :: rest =>
      let '(_, ext) := Path.splitext path in
      if in_tuple ext clang_extensions
      then clang_filter_loop rest (filtered_files ++ [path])
      else if String.eqb ext "" && should_include_extensionless_file path
      then clang_filter_loop rest (filtered_files ++ [path])
      else clang_filter_loop rest filtered_files
  end.

Definition clang_filter_changed_files (changed : list string) : list string :=
  clang_filter_loop changed [].

(** [RuffFormatHelper.filter_changed_files] *)
Fixpoint ruff_filter_loop (changed : list string) (filtered_files : list string)
    : list string :=
  match changed with
  | [] => filtered_files
  | path :: rest =>
      let '(_, ext) := Path.splitext path in
      if String.eqb ext ".py"
      then ruff_filter_loop rest (filtered_files ++ [path])
      else ruff_filter_loop rest filtered_files
  end.

Definition ruff_filter_changed_files (changed : list string) : list string :=
  ruff_filter_loop changed [].

(** The loop of [format_run] that gathers the extensions of the
    selected files into a set. *)
Fixpoint extensions_loop (files : list string) (extensions : gset string)
    : gset string :=
  match files with
  | [] => extensions
  | file :: rest =>
      let '(_, ext) := Path.splitext file in
      extensions_loop rest ({[ Str.strip_char "." ext ]} ∪ extensions)
  end.

(** The interface of the formatter helpers: [FormatHelper] with its
    two class attributes and the method the subclasses override. *)
Record FormatHelper : Type := {
  name : string;
  friendly_name : string;
  format_run : list string -> FormatArgs -> Proc.t (option string)
}.

Definition warn_issues (h : FormatHelper) : string :=
  "Warning: " ++ friendly_name h ++ ", " ++ name h ++ " detected "
  ++ "some issues with your code formatting...".

Definition warn_no_diff (h : FormatHelper) : string :=
  "Warning: The " ++ friendly_name h ++ " failed without printing "
  ++ "a diff. Check the logs for stderr output. :warning:".

(** [FormatHelper.run] *)
Definition run (h : FormatHelper) (changed : list string) (args : FormatArgs)
    : Proc.t bool :=
  do* diff := format_run h changed args in
  match diff with
  | None => Proc.ret true
  | Some d =>
      if (0 <? String.length d)%nat
      then do* _ := Proc.print (warn_issues h) in Proc.ret false
      else do* _ := Proc.print (warn_no_diff h) in Proc.ret false
  end.

Definition clang_name : string := "clang-format".
Definition ruff_name : string := "ruff".

Section Dispatch.

(** [os.environ] *)
Variable environ : gmap string string.

(** [subprocess.run(cmd, stdout=PIPE, stderr=PIPE)]: the command line
    decides what comes back, the completed process or the exception
    raised when the program cannot be started. *)
Variable subprocess_run : list string -> result CompletedProcess.

(** [b.decode("utf-8")]: the text, or the exception raised on bytes
    that are no UTF-8. *)
Variable decode_utf8 : list byte -> result string.

(** The order in which a Python [set] of strings is iterated is not
    specified; it is some enumeration of its elements. *)
Variable set_iter : gset string -> list string.

Definition clang_fmt_path : string :=
  match environ !! "CLANG_FORMAT_PATH" with
  | Some p => p
  | None => "git-clang-format"
  end.

Definition ruff_fmt_path : string :=
  match environ !! "RUFF_FORMAT_PATH" with
  | Some p => p
  | None => "ruff"
  end.

(** The value that follows [--extensions]. *)
Definition extensions_arg (cpp_files : list string) : string :=
  Str.join "," (set_iter (extensions_loop cpp_files ∅)).

(** The command line [ClangFormatHelper.format_run] builds. *)
Definition clang_cf_cmd (cpp_files : list string) (args : FormatArgs) : list string :=
  (let cf_cmd := [clang_fmt_path; "--diff"] in
   let cf_cmd :=
     if truthy_opt (start_rev args) && truthy_opt (end_rev args)
     then cf_cmd ++ [opt_str (start_rev args)] ++ [opt_str (end_rev args)]
     else cf_cmd in
   let cf_cmd := cf_cmd ++ ["--extensions"] in
   let cf_cmd := cf_cmd ++ [extensions_arg cpp_files] in
   let cf_cmd := cf_cmd ++ ["--"] in
   cf_cmd ++ cpp_files)%list.

Definition clang_format_run (changed : list string) (args : FormatArgs)
    : Proc.t (option string) :=
  let cpp_files := clang_filter_changed_files changed in
  if negb (nonempty cpp_files) then Proc.ret None
  else
    let cf_cmd := clang_cf_cmd cpp_files args in
    do* _ := Proc.when (verbose args)
               (Proc.print ("Running: " ++ Str.join " " cf_cmd)) in
    do* proc := Proc.of_result (subprocess_run cf_cmd) in
    do* err := Proc.of_result (decode_utf8 (stderr proc)) in
    do* _ := Proc.write err in
    if negb (returncode proc =? 0)%Z then
      do* _ := Proc.when (verbose args)
                 (do* _ := Proc.print ("error: " ++ clang_name ++ " exited with code "
                                       ++ str_of_int (returncode proc)) in
                  do* out := Proc.of_result (decode_utf8 (stdout proc)) in
                  Proc.print out) in
      do* diff := Proc.of_result (decode_utf8 (stdout proc)) in
      Proc.ret (Some diff)
    else Proc.ret None.

Definition ClangFormatHelper : FormatHelper := {|
  name := clang_name;
  friendly_name := "C/C++ code formatter";
  format_run := clang_format_run
|}.

(** The command line [RuffFormatHelper.format_run] builds. *)
Definition ruff_cmd (py_files : list string) (args : FormatArgs) : list string :=
  (let ruff_cmd := [ruff_fmt_path; "format"; "--check"; "--diff"] in
   let ruff_cmd :=
     if truthy_opt (py_style_config args)
     then ruff_cmd ++ ["--config"; opt_str (py_style_config args)]
     else ruff_cmd in
   let ruff_cmd := ruff_cmd ++ ["--"] in
   ruff_cmd ++ py_files)%list.

Definition ruff_format_run (changed : list string) (args : FormatArgs)
    : Proc.t (option string) :=
  let py_files := ruff_filter_changed_files changed in
  if negb (nonempty py_files) then Proc.ret None
  else
    let ruff_cmd := ruff_cmd py_files args in
    do* _ := Proc.when (verbose args)
               (Proc.print ("Running: " ++ Str.join " " ruff_cmd)) in
    do* proc := Proc.of_result (subprocess_run ruff_cmd) in
    do* _ := Proc.when (verbose args)
               (do* err := Proc.of_result (decode_utf8 (stderr proc)) in
                Proc.write err) in
    if negb (returncode proc =? 0)%Z then
      do* _ := Proc.when (verbose args)
                 (do* _ := Proc.print ("error: " ++ ruff_name ++ " exited with code "
                                       ++ str_of_int (returncode proc)) in
                  do* out := Proc.of_result (decode_utf8 (stdout proc)) in
                  Proc.print out) in
      do* diff := Proc.of_result (decode_utf8 (stdout proc)) in
      Proc.ret (Some diff)
    else
      do* out := Proc.of_result (decode_utf8 (stdout proc)) in
      do* _ := Proc.write out in
      Proc.ret None.

Definition RuffFormatHelper : FormatHelper := {|
  name := ruff_name;
  friendly_name := "Python code formatter";
  format_run := ruff_format_run
|}.

End Dispatch.

(** ** check_mr_logs.py: the git queries and the script *)

(** What [subprocess.run(cmd, capture_output=True, text=True,
    check=True)] does on a [git] command that can be started: it hands
    back the captured standard output, or raises a
    [subprocess.SubprocessError] with some text. *)
Inductive git_result : Type :=
| Completed (out : string)
| SubprocessError (text : string).

Definition git_log_cmd (start_rev end_rev : string) : list string :=
  ["git"; "log"; "--pretty=format:%H"; start_rev ++ ".." ++ end_rev].

Definition git_show_cmd (commit_hash : string) : list string :=
  ["git"; "show"; "-s"; "--format=%B%nAuthor: %an <%ae>"; commit_hash].

(** [len(l)] in an f-string. *)
Definition str_of_len {A : Type} (l : list A) : string :=
  str_of_int (Z.of_nat (List.length l)).

(** What [parser.parse_args()] hands back: the two required options. *)
Record LogsNamespace : Type := {
  logs_start_rev : string;
  logs_end_rev : string
}.

Section Git.

Variable run_git : list string -> git_result.

Definition get_git_commits (start_rev end_rev : string) : Proc.t (list string) :=
  match run_git (git_log_cmd start_rev end_rev) with
  | Completed out => Proc.ret (Str.split LF (Str.strip out))
  | SubprocessError e =>
      do* _ := Proc.print ("Error getting commit history: " ++ e) in
      Proc.exit 2
  end.

Definition get_commit_log (commit_hash : string) : Proc.t (option string) :=
  match run_git (git_show_cmd commit_hash) with
  | Completed out => Proc.ret (Some (Str.strip out))
  | SubprocessError e =>
      do* _ := Proc.print ("Error getting log for commit " ++ commit_hash ++ ": " ++ e) in
      Proc.ret None
  end.

(** The first loop of [check_mr_logs]: [inl b] when the function
    returns [b] from inside the loop, [inr error_commits] when the loop
    comes to its end. *)
Fixpoint commits_loop (commit_hashes : list string)
    (error_commits : list (string * string))
    : Proc.t (bool + list (string * string)) :=
  match commit_hashes with
  | [] => Proc.ret (inr error_commits)
  | commit_hash :: rest =>
      do* commit_msg := get_commit_log commit_hash in
      if negb (truthy_opt commit_msg) then
        do* _ := Proc.print ("Could not get log for commit " ++ commit_hash) in
        Proc.ret (inl false)
      else
        do* r := Proc.of_result (validate_commit (opt_str commit_msg)) in
        let '(is_valid, error_msgs) := r in
        if negb is_valid then
          commits_loop rest
            (error_commits ++ map (fun error_msg => (commit_hash, error_msg)) error_msgs)
        else commits_loop rest error_commits
  end.

(** The second loop of [check_mr_logs]: one line for each pair. *)
Fixpoint print_error_commits (error_commits : list (string * string)) : Proc.t unit :=
  match error_commits with
  | [] => Proc.ret tt
  | (commit_hash, error_msg) :: rest =>
      do* _ := Proc.print ("- Commit " ++ commit_hash ++ ": " ++ error_msg) in
      print_error_commits rest
  end.

Definition check_mr_logs (start_rev end_rev : string) : Proc.t bool :=
  do* commit_hashes := get_git_commits start_rev end_rev in
  do* r := commits_loop commit_hashes [] in
  match r with
  | inl b => Proc.ret b
  | inr error_commits =>
      if nonempty error_commits then
        do* _ := Proc.print ("Found " ++ str_of_len error_commits
                             ++ " commits that don't match the template:") in
        do* _ := print_error_commits error_commits in
        Proc.ret false
      else
        do* _ := Proc.print "All commits match the template!" in
        Proc.ret true
  end.

(** The script from the line after [args = parser.parse_args()] on,
    with the two revisions it has read. *)
Definition check_mr_logs_main (start_rev end_rev : string) : Proc.t unit :=
  do* ok := check_mr_logs start_rev end_rev in
  if negb ok then Proc.exit 1 else Proc.ret tt.

(** [parser.parse_args()] on the command line: the namespace, or how
    [argparse] ends the script (status 2 with a usage message on a
    missing or unknown option, status 0 after [--help]). *)
Variable parse_logs_args : list string -> Proc.t LogsNamespace.

(** The whole script. *)
Definition check_mr_logs_script (argv : list string) : Proc.t unit :=
  do* args := parse_logs_args argv in
  check_mr_logs_main (logs_start_rev args) (logs_end_rev args).

End Git.

(** ** code_format_helper.py: the script *)

(** What [parser.parse_args()] hands back: two required revisions, the
    optional list of changed files, the required style file. *)
Record FormatNamespace : Type := {
  ns_start_rev : string;
  ns_end_rev : string;
  ns_changed_files : option string;
  ns_py_style_config : string
}.

(** [FormatArgs.__init__]: [verbose] keeps the value of the class. *)
Definition FormatArgs_init (args : option FormatNamespace) : FormatArgs :=
  match args with
  | Some ns =>
      {| start_rev := Some (ns_start_rev ns);
         end_rev := Some (ns_end_rev ns);
         changed_files := ns_changed_files ns;
         py_style_config := Some (ns_py_style_config ns);
         verbose := true |}
  | None =>
      {| start_rev := None; end_rev := None; changed_files := None;
         py_style_config := None; verbose := true |}
  end.

(** [s.split(",")] when the option was given and is not empty. *)
Definition split_changed_files (changed : option string) : list string :=
  if truthy_opt changed then Str.split "," (opt_str changed) else [].

(** The loop over [ALL_FORMATTERS]. *)
Fixpoint formatters_loop (fmts : list FormatHelper) (changed : list string)
    (args : FormatArgs) (failed_formatters : list string) : Proc.t (list string) :=
  match fmts with
  | [] => Proc.ret failed_formatters
  | fmt :: rest =>
      do* ok := run fmt changed args in
      if negb ok
      then formatters_loop rest changed args (failed_formatters ++ [name fmt])
      else formatters_loop rest changed args failed_formatters
  end.

Section FormatScript.

Variable environ : gmap string string.
Variable subprocess_run : list string -> result CompletedProcess.
Variable decode_utf8 : list byte -> result string.
Variable set_iter : gset string -> list string.

Definition ALL_FORMATTERS : list FormatHelper :=
  [RuffFormatHelper environ subprocess_run decode_utf8;
   ClangFormatHelper environ subprocess_run decode_utf8 set_iter].

(** The script from the line after [parser.parse_args()] on, with the
    namespace it has read. *)
Definition format_main (ns : FormatNamespace) : Proc.t unit :=
  let args := FormatArgs_init (Some ns) in
  let changed := split_changed_files (changed_files args) in
  do* failed_formatters := formatters_loop ALL_FORMATTERS changed args [] in
  if (0 <? List.length failed_formatters)%nat then
    do* _ := Proc.print ("error: some formatters failed: "
                         ++ Str.join " " failed_formatters) in
    Proc.exit 1
  else Proc.ret tt.

(** [parser.parse_args()] on the command line: the namespace, or how
    [argparse] ends the script. *)
Variable parse_format_args : list string -> Proc.t FormatNamespace.

(** The whole script. *)
Definition format_script (argv : list string) : Proc.t unit :=
  do* ns := parse_format_args argv in
  format_main ns.

End FormatScript.

(** ** typing_helper.py *)

Record TypingArgs : Type := {
  typing_changed_files : option string;
  typing_verbose : bool
}.

(** [TypingArgs.__init__] *)
Definition TypingArgs_init (changed : option (option string)) : TypingArgs :=
  match changed with
  | Some c => {| typing_changed_files := c; typing_verbose := true |}
  | None => {| typing_changed_files := None; typing_verbose := true |}
  end.

Definition mypy_name : string := "mypy".
Definition mypy_friendly_name : string := "Static Typing for Python".

(** [MypyHelper.filter_changed_files] *)
Fixpoint mypy_filter_loop (changed : list string) (filtered_files : list string)
    : list string :=
  match changed with
  | [] => filtered_files
  | path :: rest =>
      let '(_, ext) := Path.splitext path in
      if String.eqb ext ".py"
      then mypy_filter_loop rest (filtered_files ++ [path])
      else mypy_filter_loop rest filtered_files
  end.

Definition mypy_filter_changed_files (changed : list string) : list string :=
  mypy_filter_loop changed [].

(** The file the script takes out of the list before anything else. *)
Definition lit_cfg : string := "test/unittests/lit.cfg.py".

Section Typing.

Variable environ : gmap string string.
Variable subprocess_run : list string -> result CompletedProcess.
Variable decode_utf8 : list byte -> result string.

Definition mypy_path : string :=
  match environ !! "MYPY_PATH" with
  | Some p => p
  | None => "mypy"
  end.

(** [MypyHelper.has_tool]: the call sits in a [try] whose bare
    [except] gives [False] on any exception. *)
Definition mypy_has_tool : bool :=
  match subprocess_run [mypy_path; "--version"] with
  | Raise _ => false
  | Ok proc => (returncode proc =? 0)%Z
  end.

Definition mypy_cmd (py_files : list string) : list string :=
  ([mypy_path] ++ py_files)%list.

Definition typing_run (changed : list string) (args : TypingArgs) : Proc.t bool :=
  let py_files := mypy_filter_changed_files changed in
  if negb (nonempty py_files) then
    do* _ := Proc.print "No python files changed, skipping static typing..." in
    Proc.ret true
  else
    let mypy_cmd := mypy_cmd py_files in
    do* _ := Proc.when (typing_verbose args)
               (Proc.print ("Running: " ++ Str.join " " mypy_cmd)) in
    do* proc := Proc.of_result (subprocess_run mypy_cmd) in
    do* _ := Proc.when (typing_verbose args)
               (do* err := Proc.of_result (decode_utf8 (stderr proc)) in
                Proc.write err) in
    if negb (returncode proc =? 0)%Z then
      do* _ := Proc.when (typing_verbose args)
                 (do* _ := Proc.print ("error: " ++ mypy_name ++ " exited with code "
                                       ++ str_of_int (returncode proc)) in
                  do* out := Proc.of_result (decode_utf8 (stdout proc)) in
                  Proc.print out) in
      Proc.ret false
    else
      do* out := Proc.of_result (decode_utf8 (stdout proc)) in
      do* _ := Proc.write out in
      Proc.ret true.

(** [TypingHelper.run] for the one helper there is. *)
Definition typing_helper_run (changed : list string) (args : TypingArgs) : Proc.t bool :=
  do* ok := typing_run changed args in
  if ok then Proc.ret true
  else
    do* _ := Proc.print ("Warning: " ++ mypy_friendly_name ++ ", " ++ mypy_name
                         ++ " detected " ++ "some issues with your code typing...") in
    Proc.ret false.

(** The script from the line after [parser.parse_args()] on, with the
    value of [--changed-files] it has read. *)
Definition typing_main (changed_files : option string) : Proc.t unit :=
  let args := TypingArgs_init (Some changed_files) in
  let changed := split_changed_files (typing_changed_files args) in
  let changed := List.filter (fun f => negb (String.eqb f lit_cfg)) changed in
  if negb mypy_has_tool then
    do* _ := Proc.print ("error: " ++ mypy_name ++ " is not installed or not found in PATH") in
    Proc.exit 1
  else
    do* ok := typing_helper_run changed args in
    if negb ok then
      do* _ := Proc.print "error: static typing for python failed" in
      Proc.exit 1
    else Proc.ret tt.

(** [parser.parse_args()] on the command line: the value of
    [--changed-files], or how [argparse] ends the script. *)
Variable parse_typing_args : list string -> Proc.t (option string).

(** The whole script. *)
Definition typing_script (argv : list string) : Proc.t unit :=
  do* changed_files := parse_typing_args argv in
  typing_main changed_files.

End Typing.

(** ** Notions the statements use *)

(** The first non-empty line of a message, when there is one. *)
Definition first_nonempty_line (msg : string) : option string :=
  head (List.filter Str.truthy (Str.split LF msg)).

(** [<word-chars>[<word-chars>]: <rest>], the three parts non-empty. *)
Definition header_shape (h : string) : Prop :=
  exists ty scope summary,
    h = ty ++ "[" ++ scope ++ "]: " ++ summary
    /\ ty <> "" /\ Str.all Char.isword ty = true
    /\ scope <> "" /\ Str.all Char.isword scope = true
    /\ summary <> "".

(** The failure messages among the results of the checks, in order. *)
Definition failures (rs : list (bool * string)) : list string :=
  map snd (List.filter (fun r => negb (fst r)) rs).

(** The lines of a message on which a check looks for its section. *)
Definition section_lines (prefix msg : string) : list string :=
  List.filter (fun line => Str.startswith line prefix) (Str.split LF msg).

Definition all_empty (lines : list string) : Prop :=
  Forall (fun line => line = "") lines.

Definition no_LF (s : string) : Prop :=
  Str.all (fun c => negb (Ascii.eqb c LF)) s = true.

(** The first and the last line of a message that start with [prefix]. *)
Definition first_section_line (prefix msg : string) : option string :=
  head (section_lines prefix msg).

Definition last_section_line (prefix msg : string) : option string :=
  head (rev (section_lines prefix msg)).

(** A text that begins with [<uppercase-alnum>-<digits>]. *)
Definition jira_ref_shape (t : string) : Prop :=
  exists proj num rest,
    t = proj ++ "-" ++ num ++ rest
    /\ proj <> "" /\ Str.all Char.isupper_alnum proj = true
    /\ num <> "" /\ Str.all Char.isdigit num = true.

Definition no_colon (s : string) : Prop :=
  Str.all (fun c => negb (Ascii.eqb c ":")) s = true.

Definition no_space (s : string) : Prop :=
  Str.all (fun c => negb (Char.isspace c)) s = true.

(** The extension of a path, as [os.path.splitext] gives it. *)
Definition ext (path : string) : string := snd (Path.splitext path).

(** The paths the native-code filter is to select. *)
Definition native_selected (path : string) : bool :=
  in_tuple (ext path) clang_extensions
  || (String.eqb (ext path) "" && Str.startswith path "libcxx/include").

(** The paths the Python filter is to select. *)
Definition python_selected (path : string) : bool := String.eqb (ext path) ".py".

(** The three outcomes of dispatching a tool. *)
Inductive ToolRunResult : Type :=
| Clean
| NeedsChanges
| InfrastructureFailure.

(** The outcome, from the exit code and the captured standard output. *)
Definition classify (exit_code : Z) (captured : list byte) : ToolRunResult :=
  if (exit_code =? 0)%Z then Clean
  else match captured with
       | [] => InfrastructureFailure
       | _ :: _ => NeedsChanges
       end.

(** What a run reports for an outcome: success or failure, and the
    warning it prints. *)
Definition report (h : FormatHelper) (r : ToolRunResult) : bool * list string :=
  match r with
  | Clean => (true, [])
  | NeedsChanges => (false, [Out.line (warn_issues h)])
  | InfrastructureFailure => (false, [Out.line (warn_no_diff h)])
  end.

(** Inputs on which the statements are tried. *)
Definition short_author_commit : string :=
  unlines ["feat[CORE]: add x"; ""; "Problem: p"; "Solution: s"; "Test: t";
           "JIRA: ABC-123"; "Author: jdoe"; "Author: jdoe <jdoe@is.ic>"].

Definition args0 : FormatArgs := {|
  start_rev := Some "HEAD~1";
  end_rev := Some "HEAD";
  changed_files := Some "a.cpp,b.py";
  py_style_config := Some "ruff.toml";
  verbose := true
|}.

(** A decoder for trying the statements: UTF-8 for the characters of
    the model.  A byte below 128 is its character, the two-byte
    sequences that start with 0xC2 or 0xC3 are the characters 128 to
    255, and any other byte is refused.  Bytes that Python's decoder
    refuses are refused, and where this decoder gives a text it is the
    text Python gives; the well-formed sequences of characters beyond
    255, which have no image among the strings of the model, are
    refused as well. *)
Fixpoint utf8_decode (b : list byte) : result string :=
  match b with
  | [] => Ok EmptyString
  | x :: rest =>
      let n := Byte.to_N x in
      if (n <? 128)%N then
        let* s := utf8_decode rest in Ok (String (ascii_of_N n) s)
      else if ((n =? 194) || (n =? 195))%N then
        match rest with
        | y :: rest' =>
            let m := Byte.to_N y in
            if ((128 <=? m) && (m <=? 191))%N then
              let* s := utf8_decode rest' in
              Ok (String (ascii_of_N ((n - 192) * 64 + (m - 128))) s)
            else Raise UnicodeDecodeError
        | [] => Raise UnicodeDecodeError
        end
      else Raise UnicodeDecodeError
  end.

(** The bytes of a text of ASCII characters. *)
Definition ascii_bytes (s : string) : list byte := String.list_byte_of_string s.

Definition tool_silent_failure (cmd : list string) : result CompletedProcess :=
  Ok {| returncode := 2; stdout := []; stderr := ascii_bytes "not found" |}.

Definition tool_diff (cmd : list string) : result CompletedProcess :=
  Ok {| returncode := 1; stdout := ascii_bytes "--- a.cpp"; stderr := [] |}.

(** A tool that ends with exit code 1 and a diff that is no UTF-8. *)
Definition tool_binary_diff (cmd : list string) : result CompletedProcess :=
  Ok {| returncode := 1; stdout := [xff]; stderr := [] |}.

(** A tool that cannot be started. *)
Definition tool_missing (cmd : list string) : result CompletedProcess :=
  Raise OSError.

(** A tool that ends with exit code 0 and prints nothing. *)
Definition tool_clean (cmd : list string) : result CompletedProcess :=
  Ok {| returncode := 0; stdout := []; stderr := [] |}.

(** A run of a tool that a helper takes for clean: the program
    starts, ends with exit code 0, and the streams the helper decodes
    are UTF-8 (the standard error, and for [with_stdout] the standard
    output too). *)
Definition clean_run (subprocess_run : list string -> result CompletedProcess)
    (decode_utf8 : list byte -> result string) (with_stdout : bool)
    (cmd : list string) : Prop :=
  exists proc err,
    subprocess_run cmd = Ok proc
    /\ returncode proc = 0%Z
    /\ decode_utf8 (stderr proc) = Ok err
    /\ (with_stdout = true -> exists out, decode_utf8 (stdout proc) = Ok out).

(** What one commit adds to [error_commits]: its hash with each of the
    failure messages of its log. *)
Definition commit_errors (run_git : list string -> git_result) (commit_hash : string)
    : list (string * string) :=
  match run_git (git_show_cmd commit_hash) with
  | Completed out =>
      match validate_commit (Str.strip out) with
      | Ok (_, error_msgs) => map (fun error_msg => (commit_hash, error_msg)) error_msgs
      | Raise _ => []
      end
  | SubprocessError _ => []
  end.

(** A commit whose log [git show] gives, not blank, and on which
    [validate_commit] returns. *)
Definition readable (run_git : list string -> git_result) (commit_hash : string) : Prop :=
  exists out r,
    run_git (git_show_cmd commit_hash) = Completed out
    /\ Str.strip out <> ""
    /\ validate_commit (Str.strip out) = Ok r.

(** A commit whose log [git show] does not give, or gives blank. *)
Definition unreadable (run_git : list string -> git_result) (commit_hash : string) : Prop :=
  (exists e, run_git (git_show_cmd commit_hash) = SubprocessError e)
  \/ (exists out, run_git (git_show_cmd commit_hash) = Completed out /\ Str.strip out = "").

(** A commit whose log passes the six checks. *)
Definition valid_commit (run_git : list string -> git_result) (commit_hash : string) : Prop :=
  exists out,
    run_git (git_show_cmd commit_hash) = Completed out
    /\ validate_commit (Str.strip out) = Ok (true, []).

(** The line the script prints for one pair of [error_commits]. *)
Definition error_line (e : string * string) : string :=
  Out.line ("- Commit " ++ fst e ++ ": " ++ snd e).

(** A history for trying the statements: two commits, the second
    without a [Test:] line and with a foreign address. *)
Definition demo_git (cmd : list string) : git_result :=
  match cmd with
  | ["git"; "log"; _; _] => Completed (unlines ["c0ffee"; "decade"; ""])
  | ["git"; "show"; _; _; "c0ffee"] => Completed (unlines [good_commit; ""])
  | ["git"; "show"; _; _; "decade"] =>
      Completed (unlines ["feat[CORE]: add y"; "Problem: p"; "Solution: s";
                          "JIRA: ABC-124"; "Author: eve <eve@wrong.com>"])
  | _ => SubprocessError "fatal: bad revision"
  end.

(** A history whose second commit cannot be shown. *)
Definition broken_git (cmd : list string) : git_result :=
  match cmd with
  | ["git"; "log"; _; _] => Completed (unlines ["decade"; "c0ffee"])
  | ["git"; "show"; _; _; "decade"] =>
      Completed (unlines ["feat[CORE]: add y"; "Author: eve <eve@wrong.com>"])
  | _ => SubprocessError "fatal: bad object"
  end.

(** An empty revision range: [git log] prints nothing. *)
Definition empty_git (cmd : list string) : git_result :=
  match cmd with
  | ["git"; "log"; _; _] => Completed ""
  | _ => SubprocessError "fatal: bad revision"
  end.

(** The extensions of the selected files, as they are passed on. *)
Definition passed_extensions : list string :=
  ["cpp"; "c"; "cc"; "h"; "hpp"; "hxx"; "cxx"; "inc"; "cppm"; "cl"; ""].

(** A history whose second commit has a line [Author: jdoe] in its
    message. *)
Definition raising_git (cmd : list string) : git_result :=
  match cmd with
  | ["git"; "log"; _; _] => Completed (unlines ["decade"; "c0ffee"])
  | ["git"; "show"; _; _; "decade"] =>
      Completed (unlines ["feat[CORE]: add y"; "Author: eve <eve@wrong.com>"])
  | ["git"; "show"; _; _; "c0ffee"] => Completed short_author_commit
  | _ => SubprocessError "fatal: bad object"
  end.

(** A parser for trying the statements: the two options in this
    order, and the status 2 of [argparse] on anything else. *)
Definition parse_logs_demo (argv : list string) : Proc.t LogsNamespace :=
  match argv with
  | ["--start-rev"; a; "--end-rev"; b] =>
      Proc.ret {| logs_start_rev := a; logs_end_rev := b |}
  | _ => Proc.exit 2
  end.

(** A namespace and a parser for trying the statements: the four
    options in this order, and the status 2 of [argparse] on anything
    else. *)
Definition demo_format_ns : FormatNamespace :=
  {| ns_start_rev := "a"; ns_end_rev := "b";
     ns_changed_files := Some "x.py,y.cpp"; ns_py_style_config := "ruff.toml" |}.

Definition demo_format_argv : list string :=
  ["--start-rev"; "a"; "--end-rev"; "b"; "--changed-files"; "x.py,y.cpp";
   "--py-style-config"; "ruff.toml"].

Definition parse_format_demo (argv : list string) : Proc.t FormatNamespace :=
  match argv with
  | ["--start-rev"; a; "--end-rev"; b; "--changed-files"; files; "--py-style-config"; c] =>
      Proc.ret {| ns_start_rev := a; ns_end_rev := b;
                  ns_changed_files := Some files; ns_py_style_config := c |}
  | _ => Proc.exit 2
  end.

(** A parser of the typing script for trying the statements. *)
Definition parse_typing_demo (argv : list string) : Proc.t (option string) :=
  match argv with
  | [] => Proc.ret None
  | ["--changed-files"; files] => Proc.ret (Some files)
  | _ => Proc.exit 2
  end.

(** * Properties *)

(** ** The primitives on concrete inputs *)

Example split_lines_ex :
  Str.split "010" (String "a" (String "010" (String "010" "b"))) = ["a"; ""; "b"].
Proof. reflexivity. Qed.

Example split_ws_ex : Str.split_ws "  Author:  jdoe <j@x> " = ["Author:"; "jdoe"; "<j@x>"].
Proof. reflexivity. Qed.

Example strip_ex : Str.strip "  ABC-1 2  " = "ABC-1 2".
Proof. reflexivity. Qed.

Example validate_good : validate_commit good_commit = Ok (true, []).
Proof. vm_compute. reflexivity. Qed.

Example validate_no_test :
  validate_commit (unlines ["feat[CORE]: add x"; "Problem: p"; "Solution: s";
                            "JIRA: abc123"; "Author: jdoe <jdoe@wrong.com>"])
  = Ok (false, [msg_test; msg_jira_format;
                "jdoe <jdoe@wrong.com>: email does not format: <username>@is.ic"]).
Proof. vm_compute. reflexivity. Qed.

Example splitext_ex1 : Path.splitext "src/a.b/foo.tar.gz" = ("src/a.b/foo.tar", ".gz").
Proof. reflexivity. Qed.

Example splitext_ex3 : Path.splitext "dir/..rc" = ("dir/..rc", "").
Proof. reflexivity. Qed.

Example splitext_ex5 : Path.splitext "x.." = ("x.", ".").
Proof. reflexivity. Qed.

Example filter_ex :
  clang_filter_changed_files ["a.cpp"; "b.py"; "c.h"; "d.txt"; "libcxx/include/vector"]
  = ["a.cpp"; "c.h"; "libcxx/include/vector"].
Proof. reflexivity. Qed.

Example extensions_ex :
  extensions_loop ["a.cpp"; "c.h"; "libcxx/include/vector"; "b.cpp"] ∅
  = {[ "cpp"; "h"; "" ]}.
Proof. vm_compute. reflexivity. Qed.

Example splitext_ex2 : Path.splitext "a.b/c" = ("a.b/c", "").
Proof. reflexivity. Qed.

Example splitext_ex4 : Path.splitext ".a.b" = (".a", ".b").
Proof. reflexivity. Qed.

(** ** Strings *)

Lemma append_nil_r (s : string) : s ++ "" = s.
Proof. induction s as [|c s IH]; simpl; [reflexivity | now rewrite IH]. Qed.

Lemma append_assoc (a b c : string) : (a ++ b) ++ c = a ++ b ++ c.
Proof. induction a as [|x a IH]; simpl; [reflexivity | now rewrite IH]. Qed.

Lemma length_app (a b : string) :
  String.length (a ++ b) = String.length a + String.length b.
Proof. induction a as [|x a IH]; simpl; [reflexivity | now rewrite IH]. Qed.

Lemma all_app (p : ascii -> bool) (a b : string) :
  Str.all p (a ++ b) = Str.all p a && Str.all p b.
Proof.
  induction a as [|x a IH]; simpl; [reflexivity|].
  rewrite IH. now rewrite andb_assoc.
Qed.

Lemma all_impl (p q : ascii -> bool) (s : string) :
  (forall c, p c = true -> q c = true) -> Str.all p s = true -> Str.all q s = true.
Proof.
  intros Hpq. induction s as [|c s IH]; simpl; [reflexivity|].
  intros H. apply andb_true_iff in H as [Hc Hs].
  apply andb_true_iff. split; auto.
Qed.

Lemma startswith_app (p t : string) : Str.startswith (p ++ t) p = true.
Proof.
  induction p as [|a p IH]; simpl; [reflexivity|].
  now rewrite Ascii.eqb_refl, IH.
Qed.

Lemma startswith_inv (s p : string) :
  Str.startswith s p = true -> exists t, s = p ++ t.
Proof.
  revert s. induction p as [|a p IH]; intros s H.
  - exists s. reflexivity.
  - destruct s as [|b s]; simpl in H; [discriminate|].
    apply andb_true_iff in H as [Hab Hs].
    apply Ascii.eqb_eq in Hab. subst b.
    destruct (IH _ Hs) as [t ->]. exists t. reflexivity.
Qed.

Lemma split_not_nil (sep : ascii) (s : string) : Str.split sep s <> [].
Proof.
  destruct s as [|c s]; simpl; [discriminate|].
  destruct (Ascii.eqb c sep); [discriminate|].
  destruct (Str.split sep s); discriminate.
Qed.

(** The first field of a split: a separator-free prefix stays whole. *)
Lemma split_head_app (sep : ascii) (a b : string) :
  Str.all (fun c => negb (Ascii.eqb c sep)) a = true ->
  exists w ws ws',
    Str.split sep b = w :: ws /\ Str.split sep (a ++ b) = (a ++ w) :: ws'.
Proof.
  induction a as [|c a IH]; simpl; intros H.
  - destruct (Str.split sep b) as [|w ws] eqn:E.
    + now apply split_not_nil in E.
    + exists w, ws, ws. split; reflexivity.
  - apply andb_true_iff in H as [Hc Ha].
    apply negb_true_iff in Hc. rewrite Hc.
    destruct (IH Ha) as (w & ws & ws' & Hb & Hab).
    rewrite Hab. exists w, ws, ws'. split; [assumption | reflexivity].
Qed.

Lemma split_app_sep (sep : ascii) (a b : string) :
  Str.split sep (a ++ String sep b) = (Str.split sep a ++ Str.split sep b)%list.
Proof.
  induction a as [|c a IH]; simpl.
  - now rewrite Ascii.eqb_refl.
  - destruct (Ascii.eqb c sep); rewrite IH.
    + reflexivity.
    + destruct (Str.split sep a) as [|w ws] eqn:E; [now apply split_not_nil in E|].
      reflexivity.
Qed.

(** No line of a message contains a line feed. *)
Lemma split_fields_free (sep : ascii) (s : string) :
  Forall (fun w => Str.all (fun c => negb (Ascii.eqb c sep)) w = true)
         (Str.split sep s).
Proof.
  induction s as [|c s IH]; simpl.
  - repeat constructor.
  - destruct (Ascii.eqb c sep) eqn:E.
    + constructor; [reflexivity | assumption].
    + destruct (Str.split sep s) as [|w ws]; [repeat constructor; simpl; now rewrite E|].
      inversion IH as [|? ? Hw Hws]; subst.
      constructor; [simpl; now rewrite E, Hw | assumption].
Qed.

Lemma lstrip_nonspace (c : ascii) (s : string) :
  Char.isspace c = false -> Str.lstrip (String c s) = String c s.
Proof. intros H. simpl. now rewrite H. Qed.

(** [rstrip] only touches what follows the last non-space character. *)
Lemma rstrip_app (a b : string) :
  Str.all (fun c => negb (Char.isspace c)) a = true ->
  exists b', Str.rstrip (a ++ b) = a ++ b'.
Proof.
  induction a as [|c a IH]; simpl; intros H.
  - exists (Str.rstrip b). reflexivity.
  - apply andb_true_iff in H as [Hc Ha]. apply negb_true_iff in Hc.
    destruct (IH Ha) as [b' Hb]. rewrite Hb, Hc.
    exists b'. destruct (a ++ b'); reflexivity.
Qed.

Lemma strip_nospace (w : string) :
  Str.all (fun c => negb (Char.isspace c)) w = true -> Str.strip w = w.
Proof.
  intros H. unfold Str.strip.
  assert (Hl : Str.lstrip w = w).
  { destruct w as [|c w]; [reflexivity|]. simpl in H.
    apply andb_true_iff in H as [Hc _]. apply negb_true_iff in Hc.
    now apply lstrip_nonspace. }
  rewrite Hl. destruct (rstrip_app w "" H) as [b' Hb].
  rewrite append_nil_r in Hb.
  assert (Hlen : forall s, String.length (Str.rstrip s) <= String.length s).
  { clear. induction s as [|c s IH]; simpl; [lia|].
    destruct (Str.rstrip s); [destruct (Char.isspace c)|]; simpl in *; lia. }
  specialize (Hlen w). rewrite Hb in Hlen.
  rewrite length_app in Hlen.
  destruct b'; [now rewrite append_nil_r in Hb | simpl in Hlen; lia].
Qed.

(** The tokens of [s.split()] contain no whitespace. *)
Lemma split_ws_nospace (s : string) :
  Forall (fun w => Str.all (fun c => negb (Char.isspace c)) w = true)
         (Str.split_ws s).
Proof.
  induction s as [|c s IH]; [constructor|].
  cbn [Str.split_ws]. destruct (Char.isspace c) eqn:Ec; [assumption|].
  destruct s as [|c' s'].
  - repeat constructor. simpl. now rewrite Ec.
  - destruct (Char.isspace c') eqn:Ec'.
    + constructor; [simpl; now rewrite Ec | assumption].
    + destruct (Str.split_ws (String c' s')) as [|w ws].
      * repeat constructor. simpl. now rewrite Ec.
      * inversion IH as [|? ? Hw Hws]; subst.
        constructor; [simpl; now rewrite Ec, Hw | assumption].
Qed.

(** ** Patterns *)

Lemma plus_then_intro (p : ascii -> bool) (k : string -> bool) (w r : string) :
  w <> "" -> Str.all p w = true -> k r = true ->
  Re.plus_then p k (w ++ r) = true.
Proof.
  induction w as [|c w IH]; [congruence|].
  intros _ H Hk. simpl in H. apply andb_true_iff in H as [Hc Hw].
  simpl. rewrite Hc. simpl.
  destruct w as [|c' w'].
  - simpl. rewrite Hk. apply orb_true_r.
  - rewrite IH; [reflexivity | discriminate | assumption | assumption].
Qed.

Lemma plus_then_inv (p : ascii -> bool) (k : string -> bool) (s : string) :
  Re.plus_then p k s = true ->
  exists w r, s = w ++ r /\ w <> "" /\ Str.all p w = true /\ k r = true.
Proof.
  induction s as [|c s IH]; simpl; [discriminate|].
  intros H. apply andb_true_iff in H as [Hc H].
  apply orb_true_iff in H as [H|H].
  - destruct (IH H) as (w & r & -> & _ & Hw & Hk).
    exists (String c w), r. simpl. rewrite Hc, Hw. repeat split; try easy.
  - exists (String c ""), s. simpl. rewrite Hc. repeat split; try easy.
Qed.

Lemma lit_inv (c : ascii) (pat : Re.pattern) (s : string) :
  Re.matches (Re.Lit c :: pat) s = true ->
  exists s', s = String c s' /\ Re.matches pat s' = true.
Proof.
  destruct s as [|a s]; simpl; [discriminate|].
  intros H. apply andb_true_iff in H as [Ha H].
  apply Ascii.eqb_eq in Ha. subst a. eauto.
Qed.

Lemma matches_plus (p : ascii -> bool) (pat : Re.pattern) (s : string) :
  Re.matches (Re.Plus p :: pat) s = Re.plus_then p (Re.matches pat) s.
Proof. reflexivity. Qed.

Lemma matches_lit (c : ascii) (pat : Re.pattern) (s : string) :
  Re.matches (Re.Lit c :: pat) (String c s) = Re.matches pat s.
Proof. simpl. now rewrite Ascii.eqb_refl. Qed.

Lemma matches_eos (s : string) : Re.matches [Re.Eos] s = Re.at_end s.
Proof. simpl. apply andb_true_r. Qed.

#[local] Arguments Re.matches : simpl never.
#[local] Arguments Str.startswith : simpl never.

(** ** The checks of a commit message *)

Lemma check_header_returns (msg : string) : exists r, check_header msg = Ok r.
Proof.
  unfold check_header.
  destruct (List.filter Str.truthy (Str.split LF msg)) as [|h hs]; simpl; [eauto|].
  destruct (Re.matches header_pattern h); simpl; eauto.
Qed.

Lemma check_problem_task_returns (msg : string) :
  exists r, check_problem_task_section msg = Ok r.
Proof. unfold check_problem_task_section. destruct (scan_break _ _); simpl; eauto. Qed.

Lemma check_solution_returns (msg : string) :
  exists r, check_solution_section msg = Ok r.
Proof. unfold check_solution_section. destruct (scan_break _ _); simpl; eauto. Qed.

Lemma check_test_returns (msg : string) : exists r, check_test_section msg = Ok r.
Proof. unfold check_test_section. destruct (scan_continue _ _ _); simpl; eauto. Qed.

(** A line that starts with [JIRA:] has a second field. *)
Lemma jira_field_exists (rest : string) :
  exists w ws, Str.split ":" rest = w :: ws
    /\ index (Str.split ":" ("JIRA:" ++ rest)) 1 = Ok w.
Proof.
  destruct (Str.split ":" rest) as [|w ws] eqn:E; [now apply split_not_nil in E|].
  exists w, ws. split; [reflexivity|].
  change ("JIRA:" ++ rest) with ("JIRA" ++ String ":" rest).
  rewrite split_app_sep, E. reflexivity.
Qed.

Lemma jira_loop_returns (lines : list string) : exists st, jira_loop lines = Ok st.
Proof.
  induction lines as [|line rest IH]; simpl; [eauto|].
  destruct (Str.startswith line "JIRA:") eqn:E; [|assumption].
  apply startswith_inv in E as [t ->].
  destruct (jira_field_exists t) as (w & ws & _ & ->). simpl. eauto.
Qed.

Lemma check_jira_returns (msg : string) : exists r, check_jira_section msg = Ok r.
Proof.
  unfold check_jira_section.
  destruct (jira_loop_returns (Str.split LF msg)) as [[started jira] ->]. simpl.
  destruct started; simpl; [|eauto].
  destruct (Re.matches jira_pattern jira); simpl; eauto.
Qed.

Lemma run_checks_acc (fs : list (string -> result (bool * string))) (msg : string) :
  forall (rs : list (bool * string)) (acc : list string),
    Forall2 (fun f r => f msg = Ok r) fs rs ->
    run_checks fs msg acc = Ok (acc ++ failures rs)%list.
Proof.
  induction fs as [|f fs IH]; intros rs acc H; inversion H as [|? r ? rs' Hf Hrest]; subst.
  - simpl. now rewrite app_nil_r.
  - simpl. rewrite Hf. simpl. destruct r as [[] m]; simpl.
    + rewrite (IH rs' _ Hrest). reflexivity.
    + rewrite (IH rs' _ Hrest). unfold failures. simpl. now rewrite <- app_assoc.
Qed.

(** Whenever the six checks return, [validate_commit] returns the
    messages of the failing ones, in the order of the checks, and the
    flag says whether there is none. *)
Lemma validate_commit_accumulates (msg : string) (r1 r2 r3 r4 r5 r6 : bool * string) :
  check_header msg = Ok r1 ->
  check_problem_task_section msg = Ok r2 ->
  check_solution_section msg = Ok r3 ->
  check_test_section msg = Ok r4 ->
  check_jira_section msg = Ok r5 ->
  check_author_email msg = Ok r6 ->
  validate_commit msg
  = Ok (negb (nonempty (failures [r1; r2; r3; r4; r5; r6])),
        failures [r1; r2; r3; r4; r5; r6]).
Proof.
  intros H1 H2 H3 H4 H5 H6. unfold validate_commit.
  rewrite (run_checks_acc checks msg [r1; r2; r3; r4; r5; r6] []).
  - simpl. destruct (failures _); reflexivity.
  - unfold checks. repeat constructor; assumption.
Qed.

(** The sixth check is the only one that can stop [validate_commit]. *)
Lemma validate_commit_returns_iff (msg : string) :
  (exists r, validate_commit msg = Ok r) <-> (exists r, check_author_email msg = Ok r).
Proof.
  destruct (check_header_returns msg) as [r1 H1].
  destruct (check_problem_task_returns msg) as [r2 H2].
  destruct (check_solution_returns msg) as [r3 H3].
  destruct (check_test_returns msg) as [r4 H4].
  destruct (check_jira_returns msg) as [r5 H5].
  split.
  - intros [r Hr]. destruct (check_author_email msg) as [r6|e] eqn:H6; [eauto|].
    exfalso. unfold validate_commit, checks in Hr. simpl in Hr.
    rewrite H1 in Hr. simpl in Hr.
    destruct r1 as [[] ?]; simpl in Hr; rewrite H2 in Hr; simpl in Hr;
    destruct r2 as [[] ?]; simpl in Hr; rewrite H3 in Hr; simpl in Hr;
    destruct r3 as [[] ?]; simpl in Hr; rewrite H4 in Hr; simpl in Hr;
    destruct r4 as [[] ?]; simpl in Hr; rewrite H5 in Hr; simpl in Hr;
    destruct r5 as [[] ?]; simpl in Hr; rewrite H6 in Hr; simpl in Hr;
    discriminate.
  - intros [r6 H6]. eexists.
    apply (validate_commit_accumulates msg r1 r2 r3 r4 r5 r6); assumption.
Qed.

(** C1, at the input where it fails: on a message with a line that
    starts with [Author:] and has two tokens, [validate_commit] returns
    no list of failures; the [IndexError] of [check_author_email]
    leaves it.  This also happens when such a line stands in the body
    of an otherwise conformant message, before the author line that
    [git show] appends. *)
Theorem validate_commit_raises :
  validate_commit "Author: jdoe" = Raise IndexError
  /\ validate_commit short_author_commit = Raise IndexError.
Proof. split; vm_compute; reflexivity. Qed.

(** C2, at the input where it fails: [check_author_email] raises
    [IndexError] on a line that starts with [Author:] and has fewer
    than three tokens. *)
Theorem check_author_email_raises :
  check_author_email "Author: jdoe" = Raise IndexError
  /\ check_author_email "Author:" = Raise IndexError.
Proof. split; vm_compute; reflexivity. Qed.

(** *** A message without a non-empty line *)

Lemma empty_no_header_line (lines : list string) :
  all_empty lines -> List.filter Str.truthy lines = [].
Proof. induction 1 as [|l ls Hl _ IH]; [reflexivity|]. subst l. exact IH. Qed.

Lemma empty_scan_break (hit : string -> bool) (lines : list string) :
  hit "" = false -> all_empty lines -> scan_break hit lines = false.
Proof.
  intros Hhit. induction 1 as [|l ls Hl _ IH]; [reflexivity|].
  subst l. simpl. now rewrite Hhit.
Qed.

Lemma empty_scan_continue (hit : string -> bool) (started : bool) (lines : list string) :
  hit "" = false -> all_empty lines -> scan_continue hit started lines = started.
Proof.
  intros Hhit. induction 1 as [|l ls Hl _ IH]; [reflexivity|].
  subst l. simpl. now rewrite Hhit.
Qed.

Lemma empty_jira_loop (lines : list string) :
  all_empty lines -> jira_loop lines = Ok (false, "").
Proof. induction 1 as [|l ls Hl _ IH]; [reflexivity|]. subst l. exact IH. Qed.

Lemma empty_author_loop (st : bool * string * string) (lines : list string) :
  all_empty lines -> author_loop st lines = Ok st.
Proof. induction 1 as [|l ls Hl _ IH]; [reflexivity|]. subst l. exact IH. Qed.

(** C3: a message with no non-empty line is invalid; the header check
    fails with the empty-message reason, and with it each of the other
    five checks reports its section missing. *)
Theorem empty_message_invalid (msg : string) :
  (forall line, In line (Str.split LF msg) -> line = "") ->
  check_header msg = Ok (false, msg_empty)
  /\ validate_commit msg
     = Ok (false, [msg_empty; msg_problem; msg_solution; msg_test;
                   msg_jira_missing; msg_author_missing]).
Proof.
  intros H. apply Forall_forall in H.
  assert (H1 : check_header msg = Ok (false, msg_empty)).
  { unfold check_header. now rewrite (empty_no_header_line _ H). }
  split; [exact H1|].
  rewrite (validate_commit_accumulates msg
             (false, msg_empty) (false, msg_problem) (false, msg_solution)
             (false, msg_test) (false, msg_jira_missing) (false, msg_author_missing)).
  - reflexivity.
  - exact H1.
  - unfold check_problem_task_section. now rewrite empty_scan_break.
  - unfold check_solution_section. now rewrite empty_scan_break.
  - unfold check_test_section. now rewrite empty_scan_continue.
  - unfold check_jira_section. now rewrite empty_jira_loop.
  - unfold check_author_email. now rewrite empty_author_loop.
Qed.

Lemma empty_message_invalid_witness :
  validate_commit (String LF (String LF ""))
  = Ok (false, [msg_empty; msg_problem; msg_solution; msg_test;
                msg_jira_missing; msg_author_missing]).
Proof.
  apply (empty_message_invalid (String LF (String LF ""))).
  simpl. intros line [<-|[<-|[<-|[]]]]; reflexivity.
Defined.

(** *** The header *)

Lemma line_no_LF (msg line : string) : In line (Str.split LF msg) -> no_LF line.
Proof.
  intros H. pose proof (split_fields_free LF msg) as F.
  rewrite Forall_forall in F. now apply F.
Qed.

Lemma first_nonempty_line_in (msg h : string) :
  first_nonempty_line msg = Some h -> In h (Str.split LF msg).
Proof.
  unfold first_nonempty_line. intros H.
  destruct (List.filter Str.truthy (Str.split LF msg)) as [|x xs] eqn:E; [discriminate|].
  injection H as ->.
  assert (Hin : In h (List.filter Str.truthy (Str.split LF msg))) by (rewrite E; now left).
  now apply filter_In in Hin.
Qed.

Lemma header_matches_shape (h : string) :
  no_LF h -> Re.matches header_pattern h = true -> header_shape h.
Proof.
  intros Hlf H. unfold header_pattern in H.
  rewrite matches_plus in H.
  apply plus_then_inv in H as (ty & r1 & -> & Hty & Aty & H).
  apply lit_inv in H as (r2 & -> & H).
  rewrite matches_plus in H.
  apply plus_then_inv in H as (scope & r3 & -> & Hsc & Asc & H).
  apply lit_inv in H as (r4 & -> & H).
  apply lit_inv in H as (r5 & -> & H).
  apply lit_inv in H as (r6 & -> & H).
  rewrite matches_plus in H.
  apply plus_then_inv in H as (summary & r7 & -> & Hsu & Asu & H).
  rewrite matches_eos in H.
  assert (r7 = "") as ->.
  { destruct r7 as [|c r7]; [reflexivity|]. exfalso.
    destruct r7; simpl in H; [|discriminate].
    apply Ascii.eqb_eq in H. subst c.
    unfold no_LF in Hlf.
    rewrite !all_app in Hlf. simpl in Hlf.
    rewrite !all_app in Hlf. simpl in Hlf.
    rewrite !all_app in Hlf. simpl in Hlf.
    rewrite !andb_false_r in Hlf. discriminate. }
  rewrite append_nil_r.
  exists ty, scope, summary. repeat split; assumption.
Qed.

Lemma header_shape_matches (h : string) :
  no_LF h -> header_shape h -> Re.matches header_pattern h = true.
Proof.
  intros Hlf (ty & scope & summary & -> & Hty & Aty & Hsc & Asc & Hsu).
  unfold no_LF in Hlf. rewrite all_app in Hlf.
  apply andb_true_iff in Hlf as [_ Hlf]. simpl in Hlf.
  rewrite all_app in Hlf. apply andb_true_iff in Hlf as [_ Hlf]. simpl in Hlf.
  unfold header_pattern. rewrite matches_plus.
  apply plus_then_intro; [assumption | assumption |].
  change ("[" ++ scope ++ "]: " ++ summary) with (String "[" (scope ++ "]: " ++ summary)).
  rewrite matches_lit, matches_plus.
  apply plus_then_intro; [assumption | assumption |].
  change ("]: " ++ summary) with (String "]" (String ":" (String " " summary))).
  rewrite !matches_lit, matches_plus.
  rewrite <- (append_nil_r summary).
  apply plus_then_intro; [assumption | exact Hlf | reflexivity].
Qed.

(** C4: the header check passes exactly when the first non-empty line
    has the shape [<word-chars>[<word-chars>]: <rest>], and fails with
    the fixed message when that line has another shape; the line
    [feat[CORE]: add x] passes and [add x] fails. *)
Theorem header_check_spec (msg : string) :
  (check_header msg = Ok (true, "")
   <-> exists h, first_nonempty_line msg = Some h /\ header_shape h)
  /\ (forall h, first_nonempty_line msg = Some h -> ~ header_shape h ->
      check_header msg = Ok (false, msg_header))
  /\ (first_nonempty_line msg = Some "feat[CORE]: add x" ->
      check_header msg = Ok (true, ""))
  /\ (first_nonempty_line msg = Some "add x" ->
      check_header msg = Ok (false, msg_header)).
Proof.
  assert (Hgen : forall h, first_nonempty_line msg = Some h ->
            check_header msg
            = if Re.matches header_pattern h then Ok (true, "") else Ok (false, msg_header)).
  { intros h Hh. unfold check_header. unfold first_nonempty_line in Hh.
    destruct (List.filter Str.truthy (Str.split LF msg)) as [|x xs]; [discriminate|].
    injection Hh as ->. simpl. destruct (Re.matches header_pattern h); reflexivity. }
  split; [|split; [|split]].
  - split.
    + intros H. destruct (first_nonempty_line msg) as [h|] eqn:Hh.
      * exists h. split; [reflexivity|].
        rewrite (Hgen h eq_refl) in H.
        destruct (Re.matches header_pattern h) eqn:Hm; [|discriminate].
        apply header_matches_shape; [|assumption].
        now apply (line_no_LF msg), first_nonempty_line_in.
      * exfalso. unfold check_header in H. unfold first_nonempty_line in Hh.
        destruct (List.filter Str.truthy (Str.split LF msg)); simpl in *; discriminate.
    + intros (h & Hh & Hs). rewrite (Hgen h Hh).
      rewrite header_shape_matches; [reflexivity| |assumption].
      now apply (line_no_LF msg), first_nonempty_line_in.
  - intros h Hh Hn. rewrite (Hgen h Hh).
    destruct (Re.matches header_pattern h) eqn:Hm; [|reflexivity].
    exfalso. apply Hn. apply header_matches_shape; [|assumption].
    now apply (line_no_LF msg), first_nonempty_line_in.
  - intros Hh. now rewrite (Hgen _ Hh).
  - intros Hh. now rewrite (Hgen _ Hh).
Qed.

Lemma header_check_spec_witness :
  check_header "feat[CORE]: add x" = Ok (true, "")
  /\ check_header "add x" = Ok (false, msg_header).
Proof.
  split.
  - apply (header_check_spec "feat[CORE]: add x"). reflexivity.
  - apply (header_check_spec "add x"). reflexivity.
Defined.

(** *** The JIRA reference *)

Lemma upper_alnum_plain (c : ascii) :
  Char.isupper_alnum c = true ->
  negb (Char.isspace c) = true /\ negb (Ascii.eqb c ":") = true.
Proof. destruct c as [[] [] [] [] [] [] [] []]; vm_compute; intuition discriminate. Qed.

Lemma digit_upper_alnum (c : ascii) :
  Char.isdigit c = true -> Char.isupper_alnum c = true.
Proof. unfold Char.isupper_alnum. intros ->. apply orb_true_r. Qed.

Lemma split_free (sep : ascii) (a : string) :
  Str.all (fun c => negb (Ascii.eqb c sep)) a = true -> Str.split sep a = [a].
Proof.
  induction a as [|c a IH]; simpl; intros H; [reflexivity|].
  apply andb_true_iff in H as [Hc Ha]. apply negb_true_iff in Hc.
  now rewrite Hc, (IH Ha).
Qed.

Lemma jira_matches_shape (t : string) :
  Re.matches jira_pattern t = true <-> jira_ref_shape t.
Proof.
  unfold jira_pattern. split.
  - intros H. rewrite matches_plus in H.
    apply plus_then_inv in H as (proj & r1 & -> & Hp & Ap & H).
    apply lit_inv in H as (r2 & -> & H).
    rewrite matches_plus in H.
    apply plus_then_inv in H as (num & rest & -> & Hn & An & _).
    exists proj, num, rest. repeat split; assumption.
  - intros (proj & num & rest & -> & Hp & Ap & Hn & An).
    rewrite matches_plus. apply plus_then_intro; [assumption | assumption |].
    change ("-" ++ num ++ rest) with (String "-" (num ++ rest)).
    rewrite matches_lit, matches_plus.
    apply plus_then_intro; [assumption | assumption | reflexivity].
Qed.

(** The loop stops at the first line that starts with [JIRA:]. *)
Lemma jira_loop_first (lines : list string) :
  jira_loop lines
  = match head (List.filter (fun line => Str.startswith line "JIRA:") lines) with
    | None => Ok (false, "")
    | Some line => let* field := index (Str.split ":" line) 1 in Ok (true, Str.strip field)
    end.
Proof.
  induction lines as [|line rest IH]; simpl; [reflexivity|].
  destruct (Str.startswith line "JIRA:"); [reflexivity | exact IH].
Qed.

Lemma jira_field_of_line (field tail : string) :
  no_colon field -> (tail = "" \/ exists t, tail = String ":" t) ->
  index (Str.split ":" ("JIRA:" ++ field ++ tail)) 1 = Ok field.
Proof.
  intros Hf Ht.
  change ("JIRA:" ++ field ++ tail) with ("JIRA" ++ String ":" (field ++ tail)).
  rewrite split_app_sep.
  destruct Ht as [->|[t ->]].
  - rewrite append_nil_r, (split_free _ _ Hf). reflexivity.
  - rewrite split_app_sep, (split_free _ _ Hf). reflexivity.
Qed.

Lemma check_jira_first (msg line field : string) :
  first_section_line "JIRA:" msg = Some line ->
  index (Str.split ":" line) 1 = Ok field ->
  check_jira_section msg
  = if Re.matches jira_pattern (Str.strip field) then Ok (true, "")
    else Ok (false, msg_jira_format).
Proof.
  intros Hl Hf. unfold check_jira_section. rewrite jira_loop_first.
  unfold first_section_line, section_lines in Hl. rewrite Hl, Hf. simpl.
  destruct (Re.matches jira_pattern (Str.strip field)); reflexivity.
Qed.

(** C5, as the code has it: the first line that starts with [JIRA:]
    decides.  Without such a line the check fails with the
    missing-section message; otherwise it passes exactly when the text
    between the first colon of that line and its next colon (or the end
    of the line), stripped, begins with [<uppercase-alnum>-<digits>],
    and fails with the malformed-reference message when it does not. *)
Theorem jira_check_spec (msg : string) :
  (first_section_line "JIRA:" msg = None ->
   check_jira_section msg = Ok (false, msg_jira_missing))
  /\ (forall field tail,
        first_section_line "JIRA:" msg = Some ("JIRA:" ++ field ++ tail) ->
        no_colon field -> (tail = "" \/ exists t, tail = String ":" t) ->
        (jira_ref_shape (Str.strip field) -> check_jira_section msg = Ok (true, ""))
        /\ (~ jira_ref_shape (Str.strip field) ->
            check_jira_section msg = Ok (false, msg_jira_format)))
  /\ (first_section_line "JIRA:" msg = Some "JIRA: ABC-123" ->
      check_jira_section msg = Ok (true, ""))
  /\ (first_section_line "JIRA:" msg = Some "JIRA: abc123" ->
      check_jira_section msg = Ok (false, msg_jira_format)).
Proof.
  split; [|split; [|split]].
  - intros H. unfold check_jira_section. rewrite jira_loop_first.
    unfold first_section_line, section_lines in H. now rewrite H.
  - intros field tail Hl Hf Ht.
    rewrite (check_jira_first msg _ field Hl (jira_field_of_line field tail Hf Ht)).
    destruct (Re.matches jira_pattern (Str.strip field)) eqn:Hm.
    + split; [reflexivity|]. intros Hn. exfalso. apply Hn.
      now apply jira_matches_shape.
    + split; [|reflexivity]. intros Hs. apply jira_matches_shape in Hs. congruence.
  - intros Hl. now rewrite (check_jira_first msg _ " ABC-123" Hl eq_refl).
  - intros Hl. now rewrite (check_jira_first msg _ " abc123" Hl eq_refl).
Qed.

Lemma jira_check_spec_witness :
  check_jira_section (unlines ["fix[CI]: x"; "JIRA: ABC-123"; "JIRA: abc123"]) = Ok (true, "")
  /\ check_jira_section (unlines ["JIRA: abc123"; "JIRA: ABC-123"])
     = Ok (false, msg_jira_format)
  /\ check_jira_section "fix[CI]: x" = Ok (false, msg_jira_missing).
Proof.
  split; [|split].
  - apply (jira_check_spec (unlines ["fix[CI]: x"; "JIRA: ABC-123"; "JIRA: abc123"])).
    reflexivity.
  - apply (jira_check_spec (unlines ["JIRA: abc123"; "JIRA: ABC-123"])). reflexivity.
  - apply (jira_check_spec "fix[CI]: x"). reflexivity.
Defined.

(** C5, as stated, fails: a message can contain the line
    [JIRA: ABC-123] and still fail the check, when an earlier line
    that starts with [JIRA:] carries a malformed reference. *)
Lemma jira_later_line_ignored :
  ~ (forall msg, In "JIRA: ABC-123" (Str.split LF msg) ->
                 check_jira_section msg = Ok (true, "")).
Proof.
  intros H. specialize (H (unlines ["JIRA: TBD"; "JIRA: ABC-123"])).
  assert (Hin : In "JIRA: ABC-123" (Str.split LF (unlines ["JIRA: TBD"; "JIRA: ABC-123"])))
    by (vm_compute; auto).
  specialize (H Hin). vm_compute in H. discriminate.
Qed.

(** What the check reads from a line ["JIRA: " ++ core ++ trail]
    whose [core] has neither whitespace nor colon: [core], followed by
    whatever of [trail] comes before its first colon, stripped. *)
Lemma jira_field_core (core trail : string) :
  core <> "" -> no_space core -> no_colon core ->
  exists field rest,
    index (Str.split ":" ("JIRA: " ++ core ++ trail)) 1 = Ok field
    /\ Str.strip field = core ++ rest.
Proof.
  intros Hne Hsp Hco.
  change ("JIRA: " ++ core ++ trail) with ("JIRA" ++ String ":" (" " ++ core ++ trail)).
  rewrite split_app_sep.
  destruct (split_head_app ":" (" " ++ core) trail) as (w & ws & ws' & _ & Hsplit).
  { simpl. exact Hco. }
  change ((" " ++ core) ++ trail) with (" " ++ core ++ trail) in Hsplit.
  rewrite append_assoc in Hsplit. rewrite Hsplit.
  exists (" " ++ core ++ w). simpl index.
  unfold Str.strip.
  change (Str.lstrip (" " ++ core ++ w)) with (Str.lstrip (core ++ w)).
  destruct core as [|c core]; [congruence|].
  pose proof Hsp as Hsp'. unfold no_space in Hsp'. simpl in Hsp'.
  apply andb_true_iff in Hsp' as [Hc _]. apply negb_true_iff in Hc.
  change (String c core ++ w) with (String c (core ++ w)).
  rewrite lstrip_nonspace by assumption.
  change (String c (core ++ w)) with (String c core ++ w).
  destruct (rstrip_app (String c core) w Hsp) as [b' Hb].
  exists b'. split; [reflexivity | exact Hb].
Qed.

(** C9: the reference is matched as a prefix.  When the first line
    that starts with [JIRA:] is ["JIRA: "] followed by
    [<uppercase-alnum>-<digits>] and then by any characters at all, the
    JIRA check passes. *)
Theorem jira_prefix_only (msg proj num trail : string) :
  first_section_line "JIRA:" msg = Some ("JIRA: " ++ proj ++ "-" ++ num ++ trail) ->
  proj <> "" -> Str.all Char.isupper_alnum proj = true ->
  num <> "" -> Str.all Char.isdigit num = true ->
  check_jira_section msg = Ok (true, "").
Proof.
  intros Hl Hp Ap Hn An.
  assert (Hplain : Str.all (fun c => negb (Char.isspace c) && negb (Ascii.eqb c ":"))
                     (proj ++ "-" ++ num) = true).
  { rewrite all_app. apply andb_true_iff. split.
    - apply (all_impl Char.isupper_alnum); [|assumption].
      intros c Hc. now apply andb_true_iff, upper_alnum_plain.
    - simpl. apply (all_impl Char.isdigit); [|assumption].
      intros c Hc. now apply andb_true_iff, upper_alnum_plain, digit_upper_alnum. }
  destruct (jira_field_core (proj ++ "-" ++ num) trail) as (field & rest & Hf & Hs).
  - destruct proj; [congruence | discriminate].
  - apply (all_impl _ _ _ (fun c H => proj1 (proj1 (andb_true_iff _ _) H)) Hplain).
  - apply (all_impl _ _ _ (fun c H => proj2 (proj1 (andb_true_iff _ _) H)) Hplain).
  - rewrite !append_assoc in Hf. change (String "-" (num ++ trail)) with ("-" ++ num ++ trail) in Hf.
    rewrite (check_jira_first msg _ field Hl Hf), Hs.
    assert (Hm : Re.matches jira_pattern ((proj ++ "-" ++ num) ++ rest) = true).
    { apply jira_matches_shape. exists proj, num, rest.
      rewrite !append_assoc. repeat split; assumption. }
    now rewrite Hm.
Qed.

Lemma jira_prefix_only_witness :
  check_jira_section (unlines ["feat[CORE]: add x"; "JIRA: ABC-123garbage: and more"])
  = Ok (true, "").
Proof.
  apply (jira_prefix_only
           (unlines ["feat[CORE]: add x"; "JIRA: ABC-123garbage: and more"])
           "ABC" "123" "garbage: and more");
    [reflexivity | discriminate | reflexivity | discriminate | reflexivity].
Defined.

(** *** The author line *)

Lemma head_rev_cons {A : Type} (x : A) (l : list A) :
  head (rev (x :: l)) = match head (rev l) with Some y => Some y | None => Some x end.
Proof. simpl. destruct (rev l); reflexivity. Qed.

(** When every [Author:] line has its three tokens, the loop ends in
    the state the last of them sets. *)
Lemma author_loop_last (lines : list string) :
  forall st,
    Forall (fun l => 3 <= List.length (Str.split_ws l))
           (List.filter (fun line => Str.startswith line "Author:") lines) ->
    author_loop st lines
    = Ok match head (rev (List.filter (fun line => Str.startswith line "Author:") lines)) with
         | None => st
         | Some l => (true, nth 1 (Str.split_ws l) "", nth 2 (Str.split_ws l) "")
         end.
Proof.
  induction lines as [|line rest IH]; intros st H; [reflexivity|].
  cbn [author_loop List.filter] in *.
  destruct (Str.startswith line "Author:") eqn:E; [|now apply IH].
  inversion H as [|? ? Hlen Hrest]; subst.
  pose proof (split_ws_nospace line) as Hns.
  destruct (Str.split_ws line) as [|tag [|a [|e more]]] eqn:T; simpl in Hlen; try lia.
  inversion Hns as [|? ? _ Hns1]; subst.
  inversion Hns1 as [|? ? Ha Hns2]; subst.
  inversion Hns2 as [|? ? He _]; subst.
  rewrite head_rev_cons. cbn [index nth_error bind]. rewrite (IH _ Hrest).
  destruct (head (rev _)); [reflexivity|].
  rewrite T. simpl. now rewrite !strip_nospace.
Qed.

Lemma check_author_last (msg line tag a e : string) (more : list string) :
  Forall (fun l => 3 <= List.length (Str.split_ws l)) (section_lines "Author:" msg) ->
  last_section_line "Author:" msg = Some line ->
  Str.split_ws line = tag :: a :: e :: more ->
  check_author_email msg
  = if String.eqb ("<" ++ a ++ "@is.ic>") e then Ok (true, "")
    else Ok (false, msg_author_email a e).
Proof.
  intros Hwf Hlast Htok. unfold check_author_email.
  rewrite (author_loop_last (Str.split LF msg) (false, "", "") Hwf).
  unfold last_section_line, section_lines in Hlast. rewrite Hlast, Htok.
  cbn [bind nth].
  destruct (String.eqb ("<" ++ a ++ "@is.ic>") e); reflexivity.
Qed.

(** C6, as the code has it: the last line that starts with [Author:]
    decides.  Without such a line the check fails with the
    missing-author message; when every such line has at least three
    whitespace-separated tokens, the check passes exactly when the
    third token of the last one is [<] + the second token + [@is.ic>],
    and otherwise fails with a message that names both tokens. *)
Theorem author_check_spec (msg : string) :
  (section_lines "Author:" msg = [] ->
   check_author_email msg = Ok (false, msg_author_missing))
  /\ (forall line tag name email more,
        Forall (fun l => 3 <= List.length (Str.split_ws l)) (section_lines "Author:" msg) ->
        last_section_line "Author:" msg = Some line ->
        Str.split_ws line = tag :: name :: email :: more ->
        (email = "<" ++ name ++ "@is.ic>" -> check_author_email msg = Ok (true, ""))
        /\ (email <> "<" ++ name ++ "@is.ic>" ->
            check_author_email msg
            = Ok (false, name ++ " " ++ email
                         ++ ": email does not format: <username>@is.ic")))
  /\ (Forall (fun l => 3 <= List.length (Str.split_ws l)) (section_lines "Author:" msg) ->
      last_section_line "Author:" msg = Some "Author: jdoe <jdoe@is.ic>" ->
      check_author_email msg = Ok (true, ""))
  /\ (section_lines "Author:" msg = ["Author: jdoe <jdoe@wrong.com>"] ->
      check_author_email msg
      = Ok (false, "jdoe <jdoe@wrong.com>: email does not format: <username>@is.ic")).
Proof.
  split; [|split; [|split]].
  - intros H. unfold check_author_email.
    unfold section_lines in H.
    rewrite author_loop_last; rewrite H; [reflexivity | constructor].
  - intros line tag name email more Hwf Hlast Htok.
    rewrite (check_author_last msg line tag name email more Hwf Hlast Htok).
    split.
    + intros ->. now rewrite String.eqb_refl.
    + intros Hne. destruct (String.eqb _ email) eqn:E; [|reflexivity].
      apply String.eqb_eq in E. congruence.
  - intros Hwf Hlast.
    now rewrite (check_author_last msg _ "Author:" "jdoe" "<jdoe@is.ic>" [] Hwf Hlast eq_refl).
  - intros Hl.
    rewrite (check_author_last msg "Author: jdoe <jdoe@wrong.com>"
               "Author:" "jdoe" "<jdoe@wrong.com>" []); [reflexivity | | | reflexivity].
    + rewrite Hl. repeat constructor.
    + unfold last_section_line. now rewrite Hl.
Qed.

Lemma author_check_spec_witness :
  check_author_email (unlines ["Author: eve <eve@wrong.com>"; "Author: jdoe <jdoe@is.ic>"])
  = Ok (true, "")
  /\ check_author_email (unlines ["fix[CI]: x"; "Author: jdoe <jdoe@wrong.com>"])
     = Ok (false, "jdoe <jdoe@wrong.com>: email does not format: <username>@is.ic")
  /\ check_author_email "fix[CI]: x" = Ok (false, msg_author_missing).
Proof.
  split; [|split].
  - apply (author_check_spec
             (unlines ["Author: eve <eve@wrong.com>"; "Author: jdoe <jdoe@is.ic>"]));
      [vm_compute; repeat constructor | reflexivity].
  - apply (author_check_spec (unlines ["fix[CI]: x"; "Author: jdoe <jdoe@wrong.com>"])).
    reflexivity.
  - apply (author_check_spec "fix[CI]: x"). reflexivity.
Defined.

(** C6, as stated, fails: a message can contain the line
    [Author: jdoe <jdoe@is.ic>] and still fail the check, when a later
    line that starts with [Author:] carries another pair. *)
Lemma author_earlier_line_ignored :
  ~ (forall msg, In "Author: jdoe <jdoe@is.ic>" (Str.split LF msg) ->
                 check_author_email msg = Ok (true, "")).
Proof.
  intros H.
  specialize (H (unlines ["Author: jdoe <jdoe@is.ic>"; "Author: eve <eve@wrong.com>"])).
  assert (Hin : In "Author: jdoe <jdoe@is.ic>"
                  (Str.split LF (unlines ["Author: jdoe <jdoe@is.ic>";
                                          "Author: eve <eve@wrong.com>"])))
    by (vm_compute; auto).
  specialize (H Hin). vm_compute in H. discriminate.
Qed.

(** ** The file filters *)

Lemma clang_filter_loop_acc (changed acc : list string) :
  clang_filter_loop changed acc = (acc ++ List.filter native_selected changed)%list.
Proof.
  revert acc. induction changed as [|path rest IH]; intros acc;
    cbn [clang_filter_loop List.filter].
  - now rewrite app_nil_r.
  - unfold native_selected at 1, ext.
    destruct (Path.splitext path) as [root e]. cbn [snd].
    destruct (in_tuple e clang_extensions); cbn [orb].
    + rewrite IH. now rewrite <- app_assoc.
    + unfold should_include_extensionless_file.
      destruct (String.eqb e "" && Str.startswith path "libcxx/include").
      * rewrite IH. now rewrite <- app_assoc.
      * apply IH.
Qed.

Lemma ruff_filter_loop_acc (changed acc : list string) :
  ruff_filter_loop changed acc = (acc ++ List.filter python_selected changed)%list.
Proof.
  revert acc. induction changed as [|path rest IH]; intros acc;
    cbn [ruff_filter_loop List.filter].
  - now rewrite app_nil_r.
  - unfold python_selected at 1, ext.
    destruct (Path.splitext path) as [root e]. cbn [snd].
    destruct (String.eqb e ".py").
    + rewrite IH. now rewrite <- app_assoc.
    + apply IH.
Qed.

Lemma filter_idem {A : Type} (f : A -> bool) (l : list A) :
  List.filter f (List.filter f l) = List.filter f l.
Proof.
  induction l as [|x l IH]; simpl; [reflexivity|].
  destruct (f x) eqn:E; simpl; [now rewrite E, IH | exact IH].
Qed.

Lemma in_tuple_In (x : string) (l : list string) : in_tuple x l = true <-> In x l.
Proof.
  unfold in_tuple. rewrite existsb_exists. split.
  - intros (y & Hy & E). apply String.eqb_eq in E. now subst.
  - intros H. exists x. split; [assumption | apply String.eqb_refl].
Qed.

(** C7: the native-code filter keeps, in the order and with the
    repetitions of its input, exactly the paths whose extension is in
    the allow-list or that have no extension and start with
    [libcxx/include]; the Python filter keeps exactly the paths with
    extension [.py]; both are idempotent. *)
Theorem file_filters_spec :
  (forall changed, clang_filter_changed_files changed = List.filter native_selected changed)
  /\ (forall path,
        native_selected path = true
        <-> In (ext path) [".cpp"; ".c"; ".cc"; ".h"; ".hpp"; ".hxx"; ".cxx";
                           ".inc"; ".cppm"; ".cl"]
            \/ (ext path = "" /\ exists t, path = "libcxx/include" ++ t))
  /\ (forall changed, ruff_filter_changed_files changed = List.filter python_selected changed)
  /\ (forall path, python_selected path = true <-> ext path = ".py")
  /\ (forall changed,
        clang_filter_changed_files (clang_filter_changed_files changed)
        = clang_filter_changed_files changed)
  /\ (forall changed,
        ruff_filter_changed_files (ruff_filter_changed_files changed)
        = ruff_filter_changed_files changed)
  /\ clang_filter_changed_files ["a.cpp"; "b.py"; "c.h"; "d.txt"] = ["a.cpp"; "c.h"]
  /\ ruff_filter_changed_files ["a.cpp"; "b.py"; "c.h"; "d.txt"] = ["b.py"].
Proof.
  assert (Hc : forall changed,
            clang_filter_changed_files changed = List.filter native_selected changed).
  { intros changed. unfold clang_filter_changed_files. now rewrite clang_filter_loop_acc. }
  assert (Hr : forall changed,
            ruff_filter_changed_files changed = List.filter python_selected changed).
  { intros changed. unfold ruff_filter_changed_files. now rewrite ruff_filter_loop_acc. }
  repeat split; try (vm_compute; reflexivity).
  - apply Hc.
  - unfold native_selected. intros H. apply orb_true_iff in H as [H|H].
    + left. now apply in_tuple_In.
    + right. apply andb_true_iff in H as [He Hp].
      apply String.eqb_eq in He. apply startswith_inv in Hp. now split.
  - unfold native_selected. intros [H|[He [t Hp]]]; apply orb_true_iff.
    + left. now apply in_tuple_In.
    + right. rewrite He, String.eqb_refl. cbn [andb].
      rewrite Hp. apply startswith_app.
  - apply Hr.
  - intros H. now apply String.eqb_eq.
  - intros H. now apply String.eqb_eq.
  - intros changed. rewrite !Hc. apply filter_idem.
  - intros changed. rewrite !Hr. apply filter_idem.
Qed.

(** ** The dispatch of a formatter *)

Ltac proc_step :=
  cbn [Proc.when Proc.bind Proc.print Proc.of_out Proc.ret Proc.of_result Proc.write
       Out.print Out.write fst snd negb].

(** [run] only looks at what [format_run] hands back. *)
Lemma run_of_diff (h : FormatHelper) (changed : list string) (args : FormatArgs) :
  run h changed args
  = match format_run h changed args with
    | (Done None, log) => (Done true, log)
    | (Done (Some EmptyString), log) =>
        (Done false, log ++ [Out.line (warn_no_diff h)])%list
    | (Done (Some (String _ _)), log) =>
        (Done false, log ++ [Out.line (warn_issues h)])%list
    | (Exit code, log) => (Exit code, log)
    | (Uncaught e, log) => (Uncaught e, log)
    end.
Proof.
  unfold run, Proc.bind.
  destruct (format_run h changed args) as [[[[|c d]|]|code|e] log]; cbn;
    rewrite ?app_nil_r; reflexivity.
Qed.

(** The decoder for trying the statements gives the empty text on no
    bytes only. *)
Lemma utf8_decode_empty (b : list byte) (s : string) :
  utf8_decode b = Ok s -> (b = [] <-> s = "").
Proof.
  destruct b as [|x rest]; cbn [utf8_decode].
  - intros H. injection H as <-. tauto.
  - intros H. split; [discriminate|]. intros ->. exfalso.
    destruct (Byte.to_N x <? 128)%N.
    + destruct (utf8_decode rest); discriminate H.
    + destruct ((Byte.to_N x =? 194) || (Byte.to_N x =? 195))%N; [|discriminate H].
      destruct rest as [|y rest']; [discriminate H|].
      destruct ((128 <=? Byte.to_N y) && (Byte.to_N y <=? 191))%N; [|discriminate H].
      destruct (utf8_decode rest'); discriminate H.
Qed.

Section DispatchFacts.

Variable environ : gmap string string.
Variable subprocess_run : list string -> result CompletedProcess.
Variable decode_utf8 : list byte -> result string.
Variable set_iter : gset string -> list string.

Let clang := ClangFormatHelper environ subprocess_run decode_utf8 set_iter.
Let ruff := RuffFormatHelper environ subprocess_run decode_utf8.

Lemma clang_format_run_diff (changed : list string) (args : FormatArgs)
    (proc : CompletedProcess) (err out : string) :
  clang_filter_changed_files changed <> [] ->
  subprocess_run (clang_cf_cmd environ set_iter (clang_filter_changed_files changed) args)
  = Ok proc ->
  decode_utf8 (stderr proc) = Ok err ->
  decode_utf8 (stdout proc) = Ok out ->
  fst (format_run clang changed args)
  = Done (if (returncode proc =? 0)%Z then None else Some out).
Proof using Type.
  intros Hne Hrun Herr Hout. cbn [format_run clang ClangFormatHelper].
  unfold clang_format_run.
  destruct (clang_filter_changed_files changed) as [|f fs]; [congruence|].
  cbn [nonempty negb]. rewrite Hrun.
  destruct (verbose args); cbn [Proc.when Proc.bind Proc.print Proc.of_out Proc.ret
                                  Proc.of_result Proc.write Out.print Out.write fst snd];
    rewrite Herr; cbn [Proc.bind Proc.of_result Proc.write Proc.of_out Out.write fst snd];
    destruct (returncode proc =? 0)%Z; cbn [negb]; try reflexivity;
    rewrite Hout; reflexivity.
Qed.

Lemma ruff_format_run_diff (changed : list string) (args : FormatArgs)
    (proc : CompletedProcess) (err out : string) :
  ruff_filter_changed_files changed <> [] ->
  subprocess_run (ruff_cmd environ (ruff_filter_changed_files changed) args) = Ok proc ->
  decode_utf8 (stderr proc) = Ok err ->
  decode_utf8 (stdout proc) = Ok out ->
  fst (format_run ruff changed args)
  = Done (if (returncode proc =? 0)%Z then None else Some out).
Proof using Type.
  intros Hne Hrun Herr Hout. cbn [format_run ruff RuffFormatHelper].
  unfold ruff_format_run.
  destruct (ruff_filter_changed_files changed) as [|f fs]; [congruence|].
  cbn [nonempty negb]. rewrite Hrun.
  destruct (verbose args); cbn [Proc.when Proc.bind Proc.print Proc.of_out Proc.ret
                                  Proc.of_result Proc.write Out.print Out.write fst snd];
    rewrite ?Herr; cbn [Proc.bind Proc.of_result Proc.write Proc.of_out Out.write fst snd];
    destruct (returncode proc =? 0)%Z; cbn [negb]; rewrite Hout; reflexivity.
Qed.

Lemma run_of_outcome (h : FormatHelper) (changed : list string) (args : FormatArgs)
    (exit_code : Z) (captured : list byte) (out : string) :
  fst (format_run h changed args)
  = Done (if (exit_code =? 0)%Z then None else Some out) ->
  (captured = [] <-> out = "") ->
  run h changed args
  = (Done (fst (report h (classify exit_code captured))),
     (snd (format_run h changed args)
      ++ snd (report h (classify exit_code captured)))%list).
Proof using Type.
  intros H Hempty. rewrite run_of_diff. unfold classify.
  destruct (format_run h changed args) as [r log]. cbn [fst snd] in *. subst r.
  destruct (exit_code =? 0)%Z; [cbn; now rewrite app_nil_r|].
  destruct out as [|c out].
  - rewrite (proj2 Hempty eq_refl). reflexivity.
  - destruct captured as [|x captured]; [|reflexivity].
    discriminate (proj1 Hempty eq_refl).
Qed.

(** C8, as the code has it: with a non-empty filtered file list, for a
    tool that is started and whose captured standard error and standard
    output are UTF-8, what a run reports is decided by the exit code and
    the captured standard output: exit code 0 is success without a
    warning; another exit code with output is failure with the warning
    that names the formatter and says it detected formatting issues;
    another exit code without output is failure with the different
    warning that the formatter failed without printing a diff. *)
Theorem run_classifies (changed : list string) (args : FormatArgs) :
  (forall b s, decode_utf8 b = Ok s -> (b = [] <-> s = "")) ->
  (clang_filter_changed_files changed <> [] ->
   forall proc err out,
     subprocess_run
       (clang_cf_cmd environ set_iter (clang_filter_changed_files changed) args) = Ok proc ->
     decode_utf8 (stderr proc) = Ok err ->
     decode_utf8 (stdout proc) = Ok out ->
     run clang changed args
     = (Done (fst (report clang (classify (returncode proc) (stdout proc)))),
        (snd (format_run clang changed args)
         ++ snd (report clang (classify (returncode proc) (stdout proc))))%list))
  /\ (ruff_filter_changed_files changed <> [] ->
      forall proc err out,
        subprocess_run
          (ruff_cmd environ (ruff_filter_changed_files changed) args) = Ok proc ->
        decode_utf8 (stderr proc) = Ok err ->
        decode_utf8 (stdout proc) = Ok out ->
        run ruff changed args
        = (Done (fst (report ruff (classify (returncode proc) (stdout proc)))),
           (snd (format_run ruff changed args)
            ++ snd (report ruff (classify (returncode proc) (stdout proc))))%list))
  /\ (forall exit_code captured,
        (exit_code = 0%Z -> classify exit_code captured = Clean)
        /\ (exit_code <> 0%Z -> captured <> [] ->
            classify exit_code captured = NeedsChanges)
        /\ (exit_code <> 0%Z -> captured = [] ->
            classify exit_code captured = InfrastructureFailure))
  /\ report clang Clean = (true, [])
  /\ report ruff Clean = (true, [])
  /\ report clang NeedsChanges
     = (false, [Out.line "Warning: C/C++ code formatter, clang-format detected some issues with your code formatting..."])
  /\ report ruff NeedsChanges
     = (false, [Out.line "Warning: Python code formatter, ruff detected some issues with your code formatting..."])
  /\ report clang InfrastructureFailure
     = (false, [Out.line "Warning: The C/C++ code formatter failed without printing a diff. Check the logs for stderr output. :warning:"])
  /\ report ruff InfrastructureFailure
     = (false, [Out.line "Warning: The Python code formatter failed without printing a diff. Check the logs for stderr output. :warning:"])
  /\ report clang NeedsChanges <> report clang InfrastructureFailure
  /\ report ruff NeedsChanges <> report ruff InfrastructureFailure.
Proof using Type.
  intros Hdec. split; [|split; [|split]].
  - intros Hne proc err out Hrun Herr Hout.
    apply (run_of_outcome clang changed args _ _ out).
    + now apply (clang_format_run_diff changed args proc err out).
    + now apply Hdec.
  - intros Hne proc err out Hrun Herr Hout.
    apply (run_of_outcome ruff changed args _ _ out).
    + now apply (ruff_format_run_diff changed args proc err out).
    + now apply Hdec.
  - intros exit_code captured. unfold classify. repeat split.
    + now intros ->.
    + intros Hz Hc. apply Z.eqb_neq in Hz. rewrite Hz. now destruct captured.
    + intros Hz ->. apply Z.eqb_neq in Hz. now rewrite Hz.
  - repeat split; try reflexivity; vm_compute; discriminate.
Qed.

End DispatchFacts.

Lemma run_classifies_witness :
  fst (run (ClangFormatHelper ∅ tool_silent_failure utf8_decode elements)
         ["a.cpp"; "b.py"] args0) = Done false
  /\ fst (run (RuffFormatHelper ∅ tool_diff utf8_decode) ["a.cpp"; "b.py"] args0)
     = Done false.
Proof.
  split.
  - rewrite (proj1 (run_classifies ∅ tool_silent_failure utf8_decode elements
                      ["a.cpp"; "b.py"] args0 utf8_decode_empty)
               ltac:(discriminate) _ "not found" "" eq_refl eq_refl eq_refl).
    reflexivity.
  - rewrite (proj1 (proj2 (run_classifies ∅ tool_diff utf8_decode elements
                             ["a.cpp"; "b.py"] args0 utf8_decode_empty))
               ltac:(discriminate) _ "" "--- a.cpp" eq_refl eq_refl eq_refl).
    reflexivity.
Defined.

(** C8, as stated, fails: a tool can end with a non-zero exit code and
    a non-empty standard output and the run still reports neither
    failure nor a warning, when that output is no UTF-8: decoding it
    raises, and nothing in [format_run] or [run] catches the
    exception. *)
Lemma run_undecodable_diff :
  ~ (forall (subprocess_run : list string -> result CompletedProcess)
            (changed : list string) (args : FormatArgs) (proc : CompletedProcess),
       clang_filter_changed_files changed <> [] ->
       subprocess_run (clang_cf_cmd ∅ elements (clang_filter_changed_files changed) args)
       = Ok proc ->
       returncode proc <> 0%Z ->
       stdout proc <> [] ->
       exists log,
         run (ClangFormatHelper ∅ subprocess_run utf8_decode elements) changed args
         = (Done false, log)).
Proof.
  intros H.
  destruct (H tool_binary_diff ["a.cpp"] args0
              {| returncode := 1; stdout := [xff]; stderr := [] |}
              ltac:(vm_compute; discriminate) eq_refl
              ltac:(discriminate) ltac:(discriminate)) as [log Hlog].
  vm_compute in Hlog. discriminate Hlog.
Qed.

(** ** The extensions handed to the native-code formatter *)

Lemma extensions_loop_elem (x : string) (files : list string) :
  forall acc : gset string,
    x ∈ extensions_loop files acc
    <-> x ∈ acc \/ exists f, In f files /\ x = Str.strip_char "." (ext f).
Proof.
  induction files as [|file rest IH]; intros acc; cbn [extensions_loop].
  - split; [now left | intros [H|(f & [] & _)]; exact H].
  - unfold ext at 1. destruct (Path.splitext file) as [root e] eqn:E.
    rewrite IH. rewrite elem_of_union, elem_of_singleton. split.
    + intros [[->|H]|(f & Hf & ->)].
      * right. exists file. split; [now left|]. unfold ext. now rewrite E.
      * now left.
      * right. exists f. split; [now right | reflexivity].
    + intros [H|(f & [<-|Hf] & ->)].
      * left. now right.
      * left. left. unfold ext. now rewrite E.
      * right. exists f. now split.
Qed.

(** An empty entry of a list stays an entry of the joined value. *)
Lemma join_keeps_empty (l : list string) :
  In "" l -> In "" (Str.split "," (Str.join "," l)).
Proof.
  induction l as [|w l IH]; [intros []|].
  intros H. destruct l as [|w' l'].
  - simpl in H. destruct H as [H|H]; [subst w; now left | contradiction].
  - change (Str.join "," (w :: w' :: l')) with (w ++ String "," (Str.join "," (w' :: l'))).
    rewrite split_app_sep. apply in_or_app.
    simpl in H. destruct H as [H|H]; [subst w; left; now left | right; now apply IH].
Qed.

(** C10: when the native-code filter selects a file without an
    extension, the set of extensions gathered for [--extensions]
    contains the empty string, and so the comma-joined value that
    follows [--extensions] on the command line has an empty entry, in
    whatever order the set is iterated. *)
Theorem extensionless_adds_empty_extension
    (environ : gmap string string) (set_iter : gset string -> list string)
    (changed : list string) (args : FormatArgs) :
  (forall s, set_iter s ≡ₚ elements s) ->
  (exists path, In path (clang_filter_changed_files changed) /\ ext path = "") ->
  let cpp_files := clang_filter_changed_files changed in
  "" ∈ extensions_loop cpp_files ∅
  /\ In "" (Str.split "," (extensions_arg set_iter cpp_files))
  /\ exists pre,
       clang_cf_cmd environ set_iter cpp_files args
       = (pre ++ ["--extensions"; extensions_arg set_iter cpp_files; "--"] ++ cpp_files)%list.
Proof.
  intros Hperm (path & Hin & Hext) cpp_files.
  assert (Hset : "" ∈ extensions_loop cpp_files ∅).
  { apply extensions_loop_elem. right. exists path. split; [exact Hin|].
    now rewrite Hext. }
  split; [exact Hset|]. split.
  - unfold extensions_arg. apply join_keeps_empty.
    apply list_elem_of_In. rewrite (Hperm _). now apply elem_of_elements.
  - unfold clang_cf_cmd.
    destruct (truthy_opt (start_rev args) && truthy_opt (end_rev args)).
    + exists [clang_fmt_path environ; "--diff"; opt_str (start_rev args); opt_str (end_rev args)].
      reflexivity.
    + exists [clang_fmt_path environ; "--diff"]. reflexivity.
Qed.

Lemma extensionless_adds_empty_extension_witness :
  In "" (Str.split "," (extensions_arg elements
                          (clang_filter_changed_files ["libcxx/include/vector"; "a.h"]))).
Proof.
  apply (extensionless_adds_empty_extension ∅ elements
           ["libcxx/include/vector"; "a.h"] args0).
  - intros s. reflexivity.
  - exists "libcxx/include/vector". split; [now left | reflexivity].
Defined.

(** * Further properties *)

(** ** The checks, beyond the claims *)

(** Whenever the author check returns, so does [validate_commit]: with
    the failure messages of the six checks in their order, and valid
    exactly when there is none. *)
Theorem validate_commit_collects (msg : string) (r6 : bool * string) :
  check_author_email msg = Ok r6 ->
  exists r1 r2 r3 r4 r5,
    check_header msg = Ok r1
    /\ check_problem_task_section msg = Ok r2
    /\ check_solution_section msg = Ok r3
    /\ check_test_section msg = Ok r4
    /\ check_jira_section msg = Ok r5
    /\ validate_commit msg
       = Ok (negb (nonempty (failures [r1; r2; r3; r4; r5; r6])),
             failures [r1; r2; r3; r4; r5; r6]).
Proof.
  intros H6.
  destruct (check_header_returns msg) as [r1 H1].
  destruct (check_problem_task_returns msg) as [r2 H2].
  destruct (check_solution_returns msg) as [r3 H3].
  destruct (check_test_returns msg) as [r4 H4].
  destruct (check_jira_returns msg) as [r5 H5].
  exists r1, r2, r3, r4, r5. repeat split; try assumption.
  now apply validate_commit_accumulates.
Qed.

Lemma validate_commit_collects_witness :
  exists r1 r2 r3 r4 r5,
    check_header good_commit = Ok r1
    /\ check_problem_task_section good_commit = Ok r2
    /\ check_solution_section good_commit = Ok r3
    /\ check_test_section good_commit = Ok r4
    /\ check_jira_section good_commit = Ok r5
    /\ validate_commit good_commit
       = Ok (negb (nonempty (failures [r1; r2; r3; r4; r5; (true, "")])),
             failures [r1; r2; r3; r4; r5; (true, "")]).
Proof. apply (validate_commit_collects good_commit (true, "")). reflexivity. Defined.

Lemma author_loop_short (lines : list string) :
  forall st,
    Exists (fun l => List.length (Str.split_ws l) < 3)
           (List.filter (fun line => Str.startswith line "Author:") lines) ->
    author_loop st lines = Raise IndexError.
Proof.
  induction lines as [|line rest IH]; intros st H; cbn [List.filter] in H.
  - inversion H.
  - cbn [author_loop]. destruct (Str.startswith line "Author:") eqn:E; [|now apply IH].
    destruct (Str.split_ws line) as [|tag [|a [|e more]]] eqn:T; try reflexivity.
    cbn [index nth_error bind]. apply IH.
    inversion H as [? ? Hshort|? ? Hrest]; subst; [|assumption].
    rewrite T in Hshort. simpl in Hshort. lia.
Qed.

Lemma Forall_or_Exists_short (ls : list string) :
  Forall (fun l => 3 <= List.length (Str.split_ws l)) ls
  \/ Exists (fun l => List.length (Str.split_ws l) < 3) ls.
Proof.
  induction ls as [|l ls [IH|IH]].
  - left. constructor.
  - destruct (le_lt_dec 3 (List.length (Str.split_ws l))).
    + left. now constructor.
    + right. now constructor.
  - right. now constructor.
Qed.

(** [validate_commit] is left by the exception of the author check,
    and by no other. *)
Lemma validate_commit_raise_iff (msg : string) (e : exn) :
  validate_commit msg = Raise e <-> check_author_email msg = Raise e.
Proof.
  destruct (check_author_email msg) as [r6|e6] eqn:E6.
  - destruct (proj2 (validate_commit_returns_iff msg)) as [r Hr]; [eauto|].
    rewrite Hr. split; discriminate.
  - destruct (check_header_returns msg) as [r1 H1].
    destruct (check_problem_task_returns msg) as [r2 H2].
    destruct (check_solution_returns msg) as [r3 H3].
    destruct (check_test_returns msg) as [r4 H4].
    destruct (check_jira_returns msg) as [r5 H5].
    assert (Hv : validate_commit msg = Raise e6).
    { unfold validate_commit, checks. simpl. rewrite H1. simpl.
      destruct r1 as [[] ?]; simpl; rewrite H2; simpl;
      destruct r2 as [[] ?]; simpl; rewrite H3; simpl;
      destruct r3 as [[] ?]; simpl; rewrite H4; simpl;
      destruct r4 as [[] ?]; simpl; rewrite H5; simpl;
      destruct r5 as [[] ?]; simpl; rewrite E6; reflexivity. }
    rewrite Hv. split; intros H; injection H as ->; reflexivity.
Qed.

(** The author check raises exactly when some line that starts with
    [Author:] has fewer than three whitespace-separated tokens, at
    whatever place in the message, and [validate_commit] raises exactly
    then. *)
Theorem author_check_raises_iff (msg : string) :
  (check_author_email msg = Raise IndexError
   <-> Exists (fun l => List.length (Str.split_ws l) < 3) (section_lines "Author:" msg))
  /\ (validate_commit msg = Raise IndexError
      <-> Exists (fun l => List.length (Str.split_ws l) < 3) (section_lines "Author:" msg)).
Proof.
  assert (Ha : check_author_email msg = Raise IndexError
               <-> Exists (fun l => List.length (Str.split_ws l) < 3)
                          (section_lines "Author:" msg)).
  { split.
    - intros H. destruct (Forall_or_Exists_short (section_lines "Author:" msg)) as [F|E];
        [|exact E].
      exfalso. unfold check_author_email in H.
      rewrite (author_loop_last (Str.split LF msg) (false, "", "") F) in H.
      cbn [bind] in H.
      destruct (head _) as [l|]; cbn in H;
        repeat (match type of H with context [if ?b then _ else _] => destruct b end);
        discriminate.
    - intros E. unfold check_author_email.
      now rewrite (author_loop_short (Str.split LF msg) (false, "", "") E). }
  split; [exact Ha|]. rewrite <- Ha. apply validate_commit_raise_iff.
Qed.

Lemma scan_break_existsb (hit : string -> bool) (lines : list string) :
  scan_break hit lines = existsb hit lines.
Proof.
  induction lines as [|l ls IH]; [reflexivity|].
  simpl. destruct (hit l); [reflexivity | exact IH].
Qed.

Lemma scan_continue_existsb (hit : string -> bool) (lines : list string) :
  forall started, scan_continue hit started lines = started || existsb hit lines.
Proof.
  induction lines as [|l ls IH]; intros started; simpl.
  - now rewrite orb_false_r.
  - destruct (hit l); rewrite IH; simpl; [now rewrite orb_true_r | reflexivity].
Qed.

(** The three section checks pass exactly when some line of the message
    starts with the prefix of the section ([Problem:] or [Task:] for
    the first), wherever that line stands and whatever follows the
    prefix; otherwise each fails with its own message. *)
Theorem section_checks_spec (msg : string) :
  let has prefix := exists line,
        In line (Str.split LF msg) /\ Str.startswith line prefix = true in
  (has "Problem:" \/ has "Task:" -> check_problem_task_section msg = Ok (true, ""))
  /\ (~ (has "Problem:" \/ has "Task:") ->
      check_problem_task_section msg = Ok (false, msg_problem))
  /\ (has "Solution:" -> check_solution_section msg = Ok (true, ""))
  /\ (~ has "Solution:" -> check_solution_section msg = Ok (false, msg_solution))
  /\ (has "Test:" -> check_test_section msg = Ok (true, ""))
  /\ (~ has "Test:" -> check_test_section msg = Ok (false, msg_test)).
Proof.
  intros has.
  assert (Hex : forall hit, existsb hit (Str.split LF msg) = true
                  <-> exists line, In line (Str.split LF msg) /\ hit line = true)
    by (intros hit; apply existsb_exists).
  assert (Hnex : forall hit, ~ (exists line, In line (Str.split LF msg) /\ hit line = true)
                   -> existsb hit (Str.split LF msg) = false).
  { intros hit Hn. destruct (existsb hit (Str.split LF msg)) eqn:E; [|reflexivity].
    exfalso. apply Hn. now apply Hex. }
  unfold check_problem_task_section, check_solution_section, check_test_section.
  rewrite !scan_break_existsb, scan_continue_existsb. cbn [orb].
  repeat split.
  - intros H. rewrite (proj2 (Hex _)); [reflexivity|].
    destruct H as [(l & Hl & Hp)|(l & Hl & Hp)]; exists l; rewrite Hp;
      (split; [assumption|]); [reflexivity | apply orb_true_r].
  - intros H. rewrite Hnex; [reflexivity|].
    intros (l & Hl & Hp). apply H. apply orb_true_iff in Hp as [Hp|Hp];
      [left | right]; exists l; now split.
  - intros H. now rewrite (proj2 (Hex _) H).
  - intros H. now rewrite (Hnex _ H).
  - intros H. now rewrite (proj2 (Hex _) H).
  - intros H. now rewrite (Hnex _ H).
Qed.

Lemma section_checks_spec_witness :
  check_problem_task_section (unlines ["x"; "Task: t"]) = Ok (true, "")
  /\ check_test_section (unlines ["Tests: none"; "x"]) = Ok (false, msg_test).
Proof.
  split.
  - apply (section_checks_spec (unlines ["x"; "Task: t"])).
    right. exists "Task: t". split; [right; now left | reflexivity].
  - apply (section_checks_spec (unlines ["Tests: none"; "x"])).
    intros (l & [<-|[<-|[]]] & Hl); discriminate Hl.
Defined.

(** A check that passes hands back the empty message. *)
Lemma check_pass_message (msg m : string) (f : string -> result (bool * string)) :
  In f checks -> f msg = Ok (true, m) -> m = "".
Proof.
  unfold checks. simpl.
  intros [<-|[<-|[<-|[<-|[<-|[<-|[]]]]]]] H.
  - unfold check_header in H.
    destruct (List.filter Str.truthy (Str.split LF msg)); simpl in H; [discriminate|].
    destruct (Re.matches header_pattern s); simpl in H; congruence.
  - unfold check_problem_task_section in H. destruct (scan_break _ _); simpl in H; congruence.
  - unfold check_solution_section in H. destruct (scan_break _ _); simpl in H; congruence.
  - unfold check_test_section in H. destruct (scan_continue _ _ _); simpl in H; congruence.
  - unfold check_jira_section in H.
    destruct (jira_loop (Str.split LF msg)) as [[started jira]|]; cbn [bind] in H;
      [|discriminate].
    destruct started; cbn [negb] in H; [|discriminate].
    destruct (Re.matches jira_pattern jira); cbn [negb] in H; congruence.
  - unfold check_author_email in H.
    destruct (author_loop _ _) as [[[started author] email]|]; cbn [bind] in H;
      [|discriminate].
    destruct started; cbn [negb] in H; [|discriminate].
    destruct (String.eqb _ email); cbn [negb] in H; congruence.
Qed.

(** [validate_commit] reports a message valid exactly when each of the
    six checks passes; and whatever it returns, the flag is true
    exactly when the list of failures is empty. *)
Theorem validate_commit_valid_iff (msg : string) :
  (validate_commit msg = Ok (true, [])
   <-> Forall (fun check_func => check_func msg = Ok (true, "")) checks)
  /\ (forall is_valid error_msgs,
        validate_commit msg = Ok (is_valid, error_msgs) ->
        (is_valid = true <-> error_msgs = [])).
Proof.
  split.
  - split.
    + intros H.
      destruct (proj1 (validate_commit_returns_iff msg)) as [r6 H6]; [eauto|].
      destruct (check_header_returns msg) as [r1 H1].
      destruct (check_problem_task_returns msg) as [r2 H2].
      destruct (check_solution_returns msg) as [r3 H3].
      destruct (check_test_returns msg) as [r4 H4].
      destruct (check_jira_returns msg) as [r5 H5].
      rewrite (validate_commit_accumulates msg r1 r2 r3 r4 r5 r6 H1 H2 H3 H4 H5 H6) in H.
      injection H as _ Hf. unfold failures in Hf.
      destruct r1 as [[] m1], r2 as [[] m2], r3 as [[] m3], r4 as [[] m4],
               r5 as [[] m5], r6 as [[] m6]; try discriminate Hf.
      unfold checks.
      repeat constructor;
        match goal with
        | |- ?f msg = _ =>
            match goal with
            | Hx : f msg = Ok (true, ?m) |- _ =>
                rewrite Hx; f_equal; f_equal;
                apply (check_pass_message msg m f); [unfold checks; simpl; tauto | exact Hx]
            end
        end.
    + intros H. unfold checks in H.
      inversion H as [|? ? H1 T1]; subst. inversion T1 as [|? ? H2 T2]; subst.
      inversion T2 as [|? ? H3 T3]; subst. inversion T3 as [|? ? H4 T4]; subst.
      inversion T4 as [|? ? H5 T5]; subst. inversion T5 as [|? ? H6 T6]; subst.
      now rewrite (validate_commit_accumulates msg _ _ _ _ _ _ H1 H2 H3 H4 H5 H6).
  - intros is_valid error_msgs H. unfold validate_commit in H.
    destruct (run_checks checks msg []) as [l|]; cbn [bind] in H; [|discriminate].
    destruct l; cbn [nonempty] in H; injection H as <- <-; split; congruence.
Qed.

Lemma validate_commit_valid_iff_witness :
  Forall (fun check_func => check_func good_commit = Ok (true, "")) checks.
Proof. apply (validate_commit_valid_iff good_commit). reflexivity. Defined.

Lemma lstrip_cases (s : string) :
  Str.lstrip s = "" \/ exists c r, Str.lstrip s = String c r /\ Char.isspace c = false.
Proof.
  induction s as [|c s IH]; [now left|].
  simpl. destruct (Char.isspace c) eqn:E; [exact IH|].
  right. exists c, s. now split.
Qed.

(** What [strip] leaves, when it leaves anything, starts with a
    character that is no whitespace. *)
Lemma strip_cases (s : string) :
  Str.strip s = "" \/ exists c r, Str.strip s = String c r /\ Char.isspace c = false.
Proof.
  unfold Str.strip. destruct (lstrip_cases s) as [->|(c & r & -> & Hc)]; [now left|].
  right. destruct (rstrip_app (String c "") r) as [b' Hb].
  - simpl. now rewrite Hc.
  - exists c, b'. split; [exact Hb | exact Hc].
Qed.

(** The message [check_mr_logs] hands to the checks is the stripped
    output of [git show], and only when that is not empty: such a
    message has a first non-empty line, so its header check never
    gives the empty-message reason. *)
Theorem stripped_log_has_header (out : string) :
  Str.strip out <> "" ->
  (exists h, first_nonempty_line (Str.strip out) = Some h)
  /\ (check_header (Str.strip out) = Ok (true, "")
      \/ check_header (Str.strip out) = Ok (false, msg_header)).
Proof.
  intros Hne. destruct (strip_cases out) as [H|(c & r & H & Hc)]; [congruence|].
  rewrite H. clear H Hne.
  assert (Hlf : Ascii.eqb c LF = false).
  { destruct (Ascii.eqb c LF) eqn:E; [|reflexivity].
    apply Ascii.eqb_eq in E. subst c. discriminate Hc. }
  assert (Hl : exists w ws, Str.split LF (String c r) = String c w :: ws).
  { cbn [Str.split]. rewrite Hlf. destruct (Str.split LF r) as [|w ws]; eauto. }
  destruct Hl as (w & ws & Hl).
  unfold first_nonempty_line, check_header. rewrite Hl. cbn [List.filter Str.truthy].
  split; [eauto|]. cbn [nonempty negb index nth_error bind head].
  destruct (Re.matches header_pattern (String c w)); [left | right]; reflexivity.
Qed.

Lemma stripped_log_has_header_witness :
  exists h, first_nonempty_line (Str.strip (String LF " fix[CI]: x ")) = Some h.
Proof. apply (stripped_log_has_header (String LF " fix[CI]: x ")). discriminate. Defined.

(** ** The script of check_mr_logs.py *)

Lemma validate_commit_flag (msg : string) (is_valid : bool) (error_msgs : list string) :
  validate_commit msg = Ok (is_valid, error_msgs) ->
  (is_valid = true <-> error_msgs = []).
Proof.
  intros H. unfold validate_commit in H.
  destruct (run_checks checks msg []) as [l|]; cbn [bind] in H; [|discriminate].
  destruct l; cbn [nonempty] in H; injection H as <- <-; split; congruence.
Qed.

Lemma truthy_ne (s : string) : s <> "" -> Str.truthy s = true.
Proof. destruct s; [congruence | reflexivity]. Qed.

Section GitFacts.

Variable run_git : list string -> git_result.

(** Over commits that can all be read and checked, the loop comes to
    its end, prints nothing, and has gathered the errors of each. *)
Lemma commits_loop_readable (hashes : list string) :
  Forall (readable run_git) hashes ->
  forall acc,
    commits_loop run_git hashes acc
    = (Done (inr (acc ++ flat_map (commit_errors run_git) hashes)%list), []).
Proof using Type.
  induction 1 as [|h hs (out & [b l] & Hout & Hne & Hv) _ IH]; intros acc.
  - cbn. now rewrite app_nil_r.
  - cbn [commits_loop flat_map]. unfold get_commit_log, commit_errors at 1.
    rewrite Hout, Hv. cbn [Proc.ret Proc.bind truthy_opt opt_str].
    rewrite (truthy_ne _ Hne), Hv. cbn [negb Proc.of_result Proc.bind].
    pose proof (validate_commit_flag _ _ _ Hv) as Hflag.
    destruct b; cbn [negb].
    + rewrite (proj1 Hflag eq_refl). cbn [map app]. now rewrite IH.
    + rewrite IH. cbn [app]. now rewrite <- app_assoc.
Qed.

Lemma print_error_commits_out (error_commits : list (string * string)) :
  print_error_commits error_commits = (Done tt, map error_line error_commits).
Proof using Type.
  induction error_commits as [|[h m] rest IH]; [reflexivity|].
  cbn [print_error_commits map]. rewrite IH. reflexivity.
Qed.

(** What [check_mr_logs] does when every commit can be read. *)
Lemma check_mr_logs_readable (start_rev end_rev out : string) :
  run_git (git_log_cmd start_rev end_rev) = Completed out ->
  Forall (readable run_git) (Str.split LF (Str.strip out)) ->
  let errors := flat_map (commit_errors run_git) (Str.split LF (Str.strip out)) in
  check_mr_logs run_git start_rev end_rev
  = if nonempty errors
    then (Done false,
          Out.line ("Found " ++ str_of_len errors
                    ++ " commits that don't match the template:")
          :: map error_line errors)
    else (Done true, [Out.line "All commits match the template!"]).
Proof using Type.
  intros Hlog Hread errors. unfold check_mr_logs, get_git_commits.
  rewrite Hlog. cbn [Proc.ret Proc.bind].
  rewrite (commits_loop_readable _ Hread []). cbn [app].
  fold errors. destruct errors as [|e es] eqn:E; cbn [nonempty].
  - reflexivity.
  - cbn [Proc.bind Proc.ret Proc.print Proc.of_out Out.print fst snd app nonempty].
    rewrite print_error_commits_out.
    cbn [Proc.bind Proc.ret fst snd app]. now rewrite app_nil_r.
Qed.

End GitFacts.

(** When [git log] answers and every commit can be read and checked,
    [check_mr_logs] returns false exactly when some check failed, and
    then prints one line for each failed check of each commit, in the
    order of the commits, under a heading whose number counts these
    lines: the failed checks, not the commits. *)
Theorem check_mr_logs_report (run_git : list string -> git_result)
    (start_rev end_rev out : string) :
  run_git (git_log_cmd start_rev end_rev) = Completed out ->
  Forall (readable run_git) (Str.split LF (Str.strip out)) ->
  let errors := flat_map (commit_errors run_git) (Str.split LF (Str.strip out)) in
  (errors = [] ->
   check_mr_logs run_git start_rev end_rev
   = (Done true, [Out.line "All commits match the template!"]))
  /\ (errors <> [] ->
      check_mr_logs run_git start_rev end_rev
      = (Done false,
         Out.line ("Found " ++ str_of_len errors
                   ++ " commits that don't match the template:")
         :: map error_line errors)).
Proof.
  intros Hlog Hread errors.
  pose proof (check_mr_logs_readable run_git start_rev end_rev out Hlog Hread) as H.
  cbv zeta in H. fold errors in H. rewrite H.
  destruct errors; split; intros E; try congruence; reflexivity.
Qed.

Lemma check_mr_logs_report_witness :
  check_mr_logs demo_git "main" "topic"
  = (Done false,
     [Out.line "Found 2 commits that don't match the template:";
      Out.line "- Commit decade: Missing 'Test:' section";
      Out.line "- Commit decade: eve <eve@wrong.com>: email does not format: <username>@is.ic"]).
Proof.
  apply (check_mr_logs_report demo_git "main" "topic" (unlines ["c0ffee"; "decade"; ""])).
  - reflexivity.
  - repeat constructor; unfold readable; eexists; eexists;
      (split; [reflexivity | split; [discriminate | vm_compute; reflexivity]]).
  - discriminate.
Defined.

Lemma readable_valid (run_git : list string -> git_result) (h : string) :
  readable run_git h -> (commit_errors run_git h = [] <-> valid_commit run_git h).
Proof.
  intros (out & [b l] & Hout & Hne & Hv). unfold commit_errors, valid_commit.
  rewrite Hout, Hv. pose proof (validate_commit_flag _ _ _ Hv) as Hflag. split.
  - intros E. destruct l; [|discriminate E].
    exists out. split; [reflexivity|]. rewrite Hv. now rewrite (proj2 Hflag eq_refl).
  - intros (out' & Hout' & Hv'). injection Hout' as <-. rewrite Hv in Hv'.
    injection Hv' as -> ->. reflexivity.
Qed.

Lemma flat_map_nil {A B : Type} (f : A -> list B) (l : list A) :
  flat_map f l = [] <-> Forall (fun x => f x = []) l.
Proof.
  induction l as [|x l IH]; simpl.
  - split; [constructor | reflexivity].
  - split.
    + intros H. apply app_eq_nil in H as [Hx Hl]. constructor; [assumption | now apply IH].
    + intros H. inversion H as [|? ? Hx Hl]; subst. rewrite Hx. now apply IH.
Qed.

(** When [git log] answers and every commit can be read and checked,
    the script ends with status 0 exactly when the log of every commit
    passes the six checks, and with status 1 otherwise. *)
Theorem check_mr_logs_main_status (run_git : list string -> git_result)
    (start_rev end_rev out : string) :
  run_git (git_log_cmd start_rev end_rev) = Completed out ->
  Forall (readable run_git) (Str.split LF (Str.strip out)) ->
  let status := exit_status (fst (check_mr_logs_main run_git start_rev end_rev)) in
  (status = 0%Z <-> Forall (valid_commit run_git) (Str.split LF (Str.strip out)))
  /\ (status = 0%Z \/ status = 1%Z).
Proof.
  intros Hlog Hread status.
  pose proof (check_mr_logs_readable run_git start_rev end_rev out Hlog Hread) as H.
  cbv zeta in H. subst status. unfold check_mr_logs_main. rewrite H.
  assert (Hv : flat_map (commit_errors run_git) (Str.split LF (Str.strip out)) = []
               <-> Forall (valid_commit run_git) (Str.split LF (Str.strip out))).
  { rewrite flat_map_nil. rewrite !Forall_forall in *. split.
    - intros E h Hh. apply readable_valid; auto.
    - intros E h Hh. apply readable_valid; auto. }
  destruct (flat_map _ _) as [|e es]; cbn.
  - split; [|now left]. split; [intros _; now apply Hv | reflexivity].
  - split; [|now right]. split; [discriminate|]. intros F. apply Hv in F. discriminate.
Qed.

Lemma check_mr_logs_main_status_witness :
  exit_status (fst (check_mr_logs_main demo_git "main" "topic")) = 0%Z
  \/ exit_status (fst (check_mr_logs_main demo_git "main" "topic")) = 1%Z.
Proof.
  apply (check_mr_logs_main_status demo_git "main" "topic" (unlines ["c0ffee"; "decade"; ""])).
  - reflexivity.
  - repeat constructor; unfold readable; eexists; eexists;
      (split; [reflexivity | split; [discriminate | vm_compute; reflexivity]]).
Defined.

Lemma commits_loop_app (run_git : list string -> git_result) (pre rest : list string) :
  Forall (readable run_git) pre ->
  forall acc,
    commits_loop run_git (pre ++ rest) acc
    = commits_loop run_git rest (acc ++ flat_map (commit_errors run_git) pre).
Proof.
  induction 1 as [|h hs (out & [b l] & Hout & Hne & Hv) _ IH]; intros acc.
  - cbn. now rewrite app_nil_r.
  - cbn [commits_loop flat_map app]. unfold get_commit_log, commit_errors at 1.
    rewrite Hout, Hv. cbn [Proc.ret Proc.bind truthy_opt opt_str].
    rewrite (truthy_ne _ Hne), Hv. cbn [negb Proc.of_result Proc.bind].
    pose proof (validate_commit_flag _ _ _ Hv) as Hflag.
    destruct b; cbn [negb].
    + rewrite (proj1 Hflag eq_refl). cbn [map app]. rewrite IH.
      now destruct (commits_loop run_git rest _).
    + rewrite IH, <- app_assoc. now destruct (commits_loop run_git rest _).
Qed.

(** When the log of a commit cannot be read, [check_mr_logs] returns
    false at once: after the line that names this commit it prints
    nothing, so the failures found in the commits before it are not
    reported, and the commits after it are not looked at. *)
Theorem check_mr_logs_unreadable (run_git : list string -> git_result)
    (start_rev end_rev out : string) (pre post : list string) (h : string) :
  run_git (git_log_cmd start_rev end_rev) = Completed out ->
  Str.split LF (Str.strip out) = (pre ++ h :: post)%list ->
  Forall (readable run_git) pre ->
  unreadable run_git h ->
  (forall e, run_git (git_show_cmd h) = SubprocessError e ->
     check_mr_logs run_git start_rev end_rev
     = (Done false, [Out.line ("Error getting log for commit " ++ h ++ ": " ++ e);
                     Out.line ("Could not get log for commit " ++ h)]))
  /\ (forall o, run_git (git_show_cmd h) = Completed o ->
        check_mr_logs run_git start_rev end_rev
        = (Done false, [Out.line ("Could not get log for commit " ++ h)]))
  /\ exit_status (fst (check_mr_logs_main run_git start_rev end_rev)) = 1%Z.
Proof.
  intros Hlog Hsplit Hpre Hbad.
  assert (Hloop : forall acc,
            commits_loop run_git (h :: post) acc
            = match run_git (git_show_cmd h) with
              | SubprocessError e =>
                  (Done (inl false),
                   [Out.line ("Error getting log for commit " ++ h ++ ": " ++ e);
                    Out.line ("Could not get log for commit " ++ h)])
              | Completed _ =>
                  (Done (inl false), [Out.line ("Could not get log for commit " ++ h)])
              end).
  { intros acc. cbn [commits_loop]. unfold get_commit_log.
    destruct Hbad as [(e & He)|(o & Ho & Hblank)].
    - rewrite He. reflexivity.
    - rewrite Ho. cbn [Proc.ret Proc.bind truthy_opt]. rewrite Hblank. reflexivity. }
  assert (Hcheck : check_mr_logs run_git start_rev end_rev
                   = match run_git (git_show_cmd h) with
                     | SubprocessError e =>
                         (Done false,
                          [Out.line ("Error getting log for commit " ++ h ++ ": " ++ e);
                           Out.line ("Could not get log for commit " ++ h)])
                     | Completed _ =>
                         (Done false, [Out.line ("Could not get log for commit " ++ h)])
                     end).
  { unfold check_mr_logs, get_git_commits. rewrite Hlog. cbn [Proc.ret Proc.bind].
    rewrite Hsplit, (commits_loop_app run_git pre (h :: post) Hpre), Hloop.
    destruct (run_git (git_show_cmd h)); reflexivity. }
  repeat split.
  - intros e He. now rewrite Hcheck, He.
  - intros o Ho. now rewrite Hcheck, Ho.
  - unfold check_mr_logs_main. rewrite Hcheck.
    destruct (run_git (git_show_cmd h)); reflexivity.
Qed.

Lemma check_mr_logs_unreadable_witness :
  check_mr_logs broken_git "main" "topic"
  = (Done false, [Out.line "Error getting log for commit c0ffee: fatal: bad object";
                  Out.line "Could not get log for commit c0ffee"]).
Proof.
  apply (check_mr_logs_unreadable broken_git "main" "topic"
           (unlines ["decade"; "c0ffee"]) ["decade"] [] "c0ffee").
  - reflexivity.
  - reflexivity.
  - repeat constructor; unfold readable; eexists; eexists;
      (split; [reflexivity | split; [discriminate | vm_compute; reflexivity]]).
  - left. eexists. reflexivity.
  - reflexivity.
Defined.

(** When [validate_commit] raises on the log of a commit, nothing
    catches the exception: the script ends with the error status of an
    unhandled exception and has printed none of the failures found in
    the commits before. *)
Theorem check_mr_logs_uncaught (run_git : list string -> git_result)
    (start_rev end_rev out : string) (pre post : list string) (h o : string) (e : exn) :
  run_git (git_log_cmd start_rev end_rev) = Completed out ->
  Str.split LF (Str.strip out) = (pre ++ h :: post)%list ->
  Forall (readable run_git) pre ->
  run_git (git_show_cmd h) = Completed o ->
  validate_commit (Str.strip o) = Raise e ->
  check_mr_logs_main run_git start_rev end_rev = (Uncaught e, [])
  /\ exit_status (fst (check_mr_logs_main run_git start_rev end_rev)) = 1%Z.
Proof.
  intros Hlog Hsplit Hpre Hshow Hraise.
  assert (Hne : Str.truthy (Str.strip o) = true).
  { destruct (Str.strip o); [|reflexivity]. vm_compute in Hraise. discriminate. }
  assert (H : check_mr_logs_main run_git start_rev end_rev = (Uncaught e, [])).
  { unfold check_mr_logs_main, check_mr_logs, get_git_commits.
    rewrite Hlog. cbn [Proc.ret Proc.bind].
    rewrite Hsplit, (commits_loop_app run_git pre (h :: post) Hpre).
    cbn [commits_loop]. unfold get_commit_log. rewrite Hshow.
    cbn [Proc.ret Proc.bind truthy_opt opt_str]. rewrite Hne, Hraise. reflexivity. }
  split; [exact H | now rewrite H].
Qed.

Lemma check_mr_logs_uncaught_witness :
  check_mr_logs_main raising_git "main" "topic" = (Uncaught IndexError, []).
Proof.
  apply (check_mr_logs_uncaught raising_git "main" "topic"
           (unlines ["decade"; "c0ffee"]) ["decade"] [] "c0ffee" short_author_commit).
  - reflexivity.
  - reflexivity.
  - repeat constructor; unfold readable; eexists; eexists;
      (split; [reflexivity | split; [discriminate | vm_compute; reflexivity]]).
  - reflexivity.
  - vm_compute. reflexivity.
Defined.

(** The loop over the commits never leaves through [sys.exit]. *)
Lemma commits_loop_no_exit (run_git : list string -> git_result) (hashes : list string) :
  forall acc code o, commits_loop run_git hashes acc <> (Exit code, o).
Proof.
  induction hashes as [|h hs IH]; intros acc code o; [discriminate|].
  cbn [commits_loop]. unfold get_commit_log.
  destruct (run_git (git_show_cmd h)) as [out|e]; [|discriminate].
  cbn [Proc.ret Proc.bind truthy_opt opt_str].
  destruct (Str.truthy (Str.strip out)); [|discriminate].
  cbn [negb]. destruct (validate_commit (Str.strip out)) as [[b l]|e]; [|discriminate].
  cbn [Proc.of_result Proc.bind].
  destruct b; cbn [negb].
  - destruct (commits_loop run_git hs acc) as [[r|c|e] o'] eqn:E; try discriminate.
    now apply IH in E.
  - destruct (commits_loop run_git hs _) as [[r|c|e] o'] eqn:E; try discriminate.
    now apply IH in E.
Qed.

(** From the parsed arguments on, the script ends with status 2
    exactly when the [git log] query fails. *)
Lemma check_mr_logs_main_exit_2_iff (run_git : list string -> git_result)
    (start_rev end_rev : string) :
  (forall e, run_git (git_log_cmd start_rev end_rev) = SubprocessError e ->
     check_mr_logs_main run_git start_rev end_rev
     = (Exit 2, [Out.line ("Error getting commit history: " ++ e)]))
  /\ (exit_status (fst (check_mr_logs_main run_git start_rev end_rev)) = 2%Z
      <-> exists e, run_git (git_log_cmd start_rev end_rev) = SubprocessError e).
Proof.
  assert (Hfail : forall e, run_git (git_log_cmd start_rev end_rev) = SubprocessError e ->
            check_mr_logs_main run_git start_rev end_rev
            = (Exit 2, [Out.line ("Error getting commit history: " ++ e)])).
  { intros e He. unfold check_mr_logs_main, check_mr_logs, get_git_commits.
    now rewrite He. }
  split; [exact Hfail|]. split.
  - intros H. destruct (run_git (git_log_cmd start_rev end_rev)) as [out|e] eqn:Hlog; [|eauto].
    exfalso. unfold check_mr_logs_main, check_mr_logs, get_git_commits in H.
    rewrite Hlog in H. cbn [Proc.ret Proc.bind] in H.
    destruct (commits_loop run_git (Str.split LF (Str.strip out)) [])
      as [[[b|errs]|c|e] o] eqn:E.
    + cbn in H. destruct b; discriminate H.
    + cbn [Proc.bind] in H. destruct (nonempty errs).
      * cbn [Proc.bind Proc.print Proc.of_out Out.print fst snd] in H.
        rewrite print_error_commits_out in H. discriminate H.
      * discriminate H.
    + now apply commits_loop_no_exit in E.
    + discriminate H.
  - intros [e He]. now rewrite (Hfail e He).
Qed.

(** The script ends with status 2 exactly when [argparse] ends it
    with that status, or the command line is parsed and the [git log]
    query fails; in the second case it has printed the one line with
    the error and asked for no commit. *)
Theorem check_mr_logs_script_exit_2 (run_git : list string -> git_result)
    (parse_logs_args : list string -> Proc.t LogsNamespace) (argv : list string) :
  (exit_status (fst (check_mr_logs_script run_git parse_logs_args argv)) = 2%Z
   <-> (exists o, parse_logs_args argv = (Exit 2, o))
       \/ (exists args o e,
             parse_logs_args argv = (Done args, o)
             /\ run_git (git_log_cmd (logs_start_rev args) (logs_end_rev args))
                = SubprocessError e))
  /\ (forall args o e,
        parse_logs_args argv = (Done args, o) ->
        run_git (git_log_cmd (logs_start_rev args) (logs_end_rev args))
        = SubprocessError e ->
        check_mr_logs_script run_git parse_logs_args argv
        = (Exit 2, (o ++ [Out.line ("Error getting commit history: " ++ e)])%list)).
Proof.
  unfold check_mr_logs_script.
  destruct (parse_logs_args argv) as [[args|code|e] o] eqn:Hp; cbn [Proc.bind].
  - pose proof (check_mr_logs_main_exit_2_iff run_git
                  (logs_start_rev args) (logs_end_rev args)) as [Hfail Hiff].
    destruct (check_mr_logs_main run_git (logs_start_rev args) (logs_end_rev args))
      as [r o2] eqn:Hm.
    cbn [fst] in *. split.
    + rewrite Hiff. split.
      * intros [e He]. right. exists args, o, e. now split.
      * intros [[o' Ho']|(args' & o' & e & Ho' & He)]; [discriminate Ho'|].
        injection Ho' as <- <-. eauto.
    + intros args' o' e Ho' He. injection Ho' as <- <-.
      specialize (Hfail e He). now injection Hfail as -> ->.
  - cbn [fst exit_status]. split.
    + split.
      * intros ->. left. eauto.
      * intros [[o' Ho']|(args' & o' & e & Ho' & _)]; [now injection Ho' | discriminate Ho'].
    + intros args' o' e Ho'. discriminate Ho'.
  - cbn [fst exit_status]. split.
    + split; [discriminate|].
      intros [[o' Ho']|(args' & o' & e' & Ho' & _)]; discriminate Ho'.
    + intros args' o' e' Ho'. discriminate Ho'.
Qed.

Lemma check_mr_logs_script_exit_2_witness :
  check_mr_logs_script (fun _ => SubprocessError "not a git repository")
    parse_logs_demo ["--start-rev"; "main"; "--end-rev"; "topic"]
  = (Exit 2, [Out.line "Error getting commit history: not a git repository"]).
Proof.
  apply (proj2 (check_mr_logs_script_exit_2
                  (fun _ => SubprocessError "not a git repository")
                  parse_logs_demo ["--start-rev"; "main"; "--end-rev"; "topic"])
           {| logs_start_rev := "main"; logs_end_rev := "topic" |} []
           "not a git repository");
    reflexivity.
Defined.

(** An empty revision range is no empty loop: when [git log] prints
    nothing, the one commit the script asks [git show] for is the empty
    hash, and the run succeeds only if that answer passes the checks. *)
Theorem empty_range_asks_empty_hash (run_git : list string -> git_result)
    (start_rev end_rev out : string) :
  run_git (git_log_cmd start_rev end_rev) = Completed out ->
  Str.strip out = "" ->
  get_git_commits run_git start_rev end_rev = (Done [""], [])
  /\ (fst (check_mr_logs run_git start_rev end_rev) = Done true -> valid_commit run_git "")
  /\ (unreadable run_git "" ->
      exit_status (fst (check_mr_logs_main run_git start_rev end_rev)) = 1%Z).
Proof.
  intros Hlog Hblank.
  assert (Hget : get_git_commits run_git start_rev end_rev = (Done [""], [])).
  { unfold get_git_commits. now rewrite Hlog, Hblank. }
  split; [exact Hget|]. split.
  - unfold check_mr_logs. rewrite Hget. cbn [Proc.bind commits_loop].
    unfold get_commit_log, valid_commit.
    destruct (run_git (git_show_cmd "")) as [o|e]; [|discriminate].
    cbn [Proc.ret Proc.bind truthy_opt opt_str].
    destruct (Str.truthy (Str.strip o)); [|discriminate].
    cbn [negb]. destruct (validate_commit (Str.strip o)) as [[b l]|e] eqn:Hv; [|discriminate].
    pose proof (validate_commit_flag _ _ _ Hv) as Hflag.
    cbn [Proc.of_result Proc.bind]. destruct b; cbn [negb Proc.ret Proc.bind app].
    + intros _. exists o. split; [reflexivity|].
      rewrite Hv. now rewrite (proj1 Hflag eq_refl).
    + destruct l as [|m l]; [discriminate (proj2 Hflag eq_refl)|].
      cbn [map nonempty Proc.bind Proc.print Proc.of_out Out.print fst snd].
      rewrite print_error_commits_out. discriminate.
  - intros Hbad. unfold check_mr_logs_main, check_mr_logs.
    rewrite Hget. cbn [Proc.bind commits_loop]. unfold get_commit_log.
    destruct Hbad as [(e & He)|(o & Ho & Hb)].
    + rewrite He. reflexivity.
    + rewrite Ho. cbn [Proc.ret Proc.bind truthy_opt]. rewrite Hb. reflexivity.
Qed.

Lemma empty_range_asks_empty_hash_witness :
  exit_status (fst (check_mr_logs_main empty_git "main" "main")) = 1%Z.
Proof.
  apply (empty_range_asks_empty_hash empty_git "main" "main" "");
    [reflexivity | reflexivity | left; eexists; reflexivity].
Defined.

(** ** The script of code_format_helper.py *)

Lemma formatters_loop_two (h1 h2 : FormatHelper) (changed : list string)
    (args : FormatArgs) :
  formatters_loop [h1; h2] changed args []
  = match run h1 changed args with
    | (Done ok1, l1) =>
        match run h2 changed args with
        | (Done ok2, l2) =>
            (Done ((if ok1 then [] else [name h1])
                   ++ (if ok2 then [] else [name h2]))%list,
             (l1 ++ l2)%list)
        | (Exit code, l2) => (Exit code, (l1 ++ l2)%list)
        | (Uncaught e, l2) => (Uncaught e, (l1 ++ l2)%list)
        end
    | (Exit code, l1) => (Exit code, l1)
    | (Uncaught e, l1) => (Uncaught e, l1)
    end.
Proof.
  cbn [formatters_loop].
  destruct (run h1 changed args) as [[ok1|c1|e1] l1]; cbn [Proc.bind]; try reflexivity.
  destruct ok1; cbn [negb app];
    destruct (run h2 changed args) as [[ok2|c2|e2] l2]; cbn [Proc.bind]; try reflexivity;
    destruct ok2; cbn; rewrite ?app_nil_r; reflexivity.
Qed.

Section FormatScriptFacts.

Variable environ : gmap string string.
Variable subprocess_run : list string -> result CompletedProcess.
Variable decode_utf8 : list byte -> result string.
Variable set_iter : gset string -> list string.

Let clang := ClangFormatHelper environ subprocess_run decode_utf8 set_iter.
Let ruff := RuffFormatHelper environ subprocess_run decode_utf8.

(** A formatter without a file of its own is skipped: success, and
    nothing printed. *)
Lemma clang_run_skip (changed : list string) (args : FormatArgs) :
  clang_filter_changed_files changed = [] -> run clang changed args = (Done true, []).
Proof using Type.
  intros H. unfold run, clang. cbn [format_run ClangFormatHelper].
  unfold clang_format_run. now rewrite H.
Qed.

Lemma ruff_run_skip (changed : list string) (args : FormatArgs) :
  ruff_filter_changed_files changed = [] -> run ruff changed args = (Done true, []).
Proof using Type.
  intros H. unfold run, ruff. cbn [format_run RuffFormatHelper].
  unfold ruff_format_run. now rewrite H.
Qed.

(** How [format_run] ends when there are files for the formatter. *)
Lemma clang_format_run_fst (changed : list string) (args : FormatArgs) :
  clang_filter_changed_files changed <> [] ->
  fst (format_run clang changed args)
  = match subprocess_run
            (clang_cf_cmd environ set_iter (clang_filter_changed_files changed) args) with
    | Raise e => Uncaught e
    | Ok proc =>
        match decode_utf8 (stderr proc) with
        | Raise e => Uncaught e
        | Ok _ =>
            if (returncode proc =? 0)%Z then Done None
            else match decode_utf8 (stdout proc) with
                 | Raise e => Uncaught e
                 | Ok d => Done (Some d)
                 end
        end
    end.
Proof using Type.
  intros Hne. cbn [format_run clang ClangFormatHelper]. unfold clang_format_run.
  destruct (clang_filter_changed_files changed) as [|f fs]; [congruence|].
  cbn [nonempty negb].
  destruct (verbose args); proc_step;
    (destruct (subprocess_run (clang_cf_cmd environ set_iter (f :: fs) args))
       as [proc|e]; proc_step; [|reflexivity]);
    (destruct (decode_utf8 (stderr proc)) as [err|e]; proc_step; [|reflexivity]);
    (destruct (returncode proc =? 0)%Z; proc_step; [reflexivity|]);
    destruct (decode_utf8 (stdout proc)) as [d|e]; reflexivity.
Qed.

Lemma ruff_format_run_fst (changed : list string) (args : FormatArgs) :
  verbose args = true ->
  ruff_filter_changed_files changed <> [] ->
  fst (format_run ruff changed args)
  = match subprocess_run
            (ruff_cmd environ (ruff_filter_changed_files changed) args) with
    | Raise e => Uncaught e
    | Ok proc =>
        match decode_utf8 (stderr proc) with
        | Raise e => Uncaught e
        | Ok _ =>
            match decode_utf8 (stdout proc) with
            | Raise e => Uncaught e
            | Ok d => if (returncode proc =? 0)%Z then Done None else Done (Some d)
            end
        end
    end.
Proof using Type.
  intros Hv Hne. cbn [format_run ruff RuffFormatHelper]. unfold ruff_format_run.
  destruct (ruff_filter_changed_files changed) as [|f fs]; [congruence|].
  cbn [nonempty negb]. rewrite Hv. proc_step.
  destruct (subprocess_run (ruff_cmd environ (f :: fs) args)) as [proc|e]; proc_step;
    [|reflexivity].
  destruct (decode_utf8 (stderr proc)) as [err|e]; proc_step; [|reflexivity].
  destruct (decode_utf8 (stdout proc)) as [d|e];
    destruct (returncode proc =? 0)%Z; reflexivity.
Qed.

(** [run] succeeds exactly when [format_run] hands back [None], and
    leaves through [sys.exit] only if [format_run] does. *)
Lemma run_fst (h : FormatHelper) (changed : list string) (args : FormatArgs) :
  fst (run h changed args)
  = match fst (format_run h changed args) with
    | Done None => Done true
    | Done (Some _) => Done false
    | Exit code => Exit code
    | Uncaught e => Uncaught e
    end.
Proof using Type.
  rewrite run_of_diff.
  now destruct (format_run h changed args) as [[[[|c d]|]|code|e] log].
Qed.

(** How a run of the native-code formatter can end: never through
    [sys.exit], and with success exactly when there is no file for it
    or the run of the tool is clean. *)
Lemma clang_run_ends (changed : list string) (args : FormatArgs) :
  (fst (run clang changed args) = Done true
   <-> clang_filter_changed_files changed = []
       \/ clean_run subprocess_run decode_utf8 false
            (clang_cf_cmd environ set_iter (clang_filter_changed_files changed) args))
  /\ (forall code, fst (run clang changed args) <> Exit code).
Proof using Type.
  destruct (clang_filter_changed_files changed) as [|f fs] eqn:E.
  - rewrite (clang_run_skip changed args E). cbn. split; [tauto | discriminate].
  - rewrite run_fst, clang_format_run_fst by (rewrite E; discriminate).
    rewrite E. unfold clean_run.
    destruct (subprocess_run (clang_cf_cmd environ set_iter (f :: fs) args))
      as [proc|e] eqn:Hrun.
    + destruct (decode_utf8 (stderr proc)) as [err|e] eqn:Herr.
      * destruct (returncode proc =? 0)%Z eqn:Hrc.
        -- split; [|discriminate]. split; [|reflexivity].
           intros _. right. exists proc, err.
           repeat split; [now apply Z.eqb_eq | assumption | discriminate].
        -- apply Z.eqb_neq in Hrc.
           destruct (decode_utf8 (stdout proc)) as [d|e]; (split; [|discriminate]);
             (split; [discriminate|]);
             intros [H|(proc' & err' & Hp & Hz & _)]; try discriminate H;
             injection Hp as <-; contradiction.
      * split; [|discriminate]. split; [discriminate|].
        intros [H|(proc' & err' & Hp & _ & He & _)]; [discriminate H|].
        injection Hp as <-. rewrite He in Herr. discriminate Herr.
    + split; [|discriminate]. split; [discriminate|].
      intros [H|(proc' & err' & Hp & _)]; discriminate.
Qed.

(** The same for the Python formatter, which also decodes the
    standard output of a clean run. *)
Lemma ruff_run_ends (changed : list string) (args : FormatArgs) :
  verbose args = true ->
  (fst (run ruff changed args) = Done true
   <-> ruff_filter_changed_files changed = []
       \/ clean_run subprocess_run decode_utf8 true
            (ruff_cmd environ (ruff_filter_changed_files changed) args))
  /\ (forall code, fst (run ruff changed args) <> Exit code).
Proof using Type.
  intros Hv. destruct (ruff_filter_changed_files changed) as [|f fs] eqn:E.
  - rewrite (ruff_run_skip changed args E). cbn. split; [tauto | discriminate].
  - rewrite run_fst, ruff_format_run_fst by (try assumption; rewrite E; discriminate).
    rewrite E. unfold clean_run.
    destruct (subprocess_run (ruff_cmd environ (f :: fs) args)) as [proc|e] eqn:Hrun.
    + destruct (decode_utf8 (stderr proc)) as [err|e] eqn:Herr.
      * destruct (decode_utf8 (stdout proc)) as [d|e] eqn:Hout.
        -- destruct (returncode proc =? 0)%Z eqn:Hrc.
           ++ split; [|discriminate]. split; [|reflexivity].
              intros _. right. exists proc, err.
              repeat split; [now apply Z.eqb_eq | assumption | eauto].
           ++ apply Z.eqb_neq in Hrc. split; [|discriminate]. split; [discriminate|].
              intros [H|(proc' & err' & Hp & Hz & _)]; [discriminate H|].
              injection Hp as <-. contradiction.
        -- split; [|discriminate]. split; [discriminate|].
           intros [H|(proc' & err' & Hp & _ & _ & Ho)]; [discriminate H|].
           injection Hp as <-. destruct (Ho eq_refl) as [o' Ho'].
           rewrite Ho' in Hout. discriminate Hout.
      * split; [|discriminate]. split; [discriminate|].
        intros [H|(proc' & err' & Hp & _ & He & _)]; [discriminate H|].
        injection Hp as <-. rewrite He in Herr. discriminate Herr.
    + split; [|discriminate]. split; [discriminate|].
      intros [H|(proc' & err' & Hp & _)]; discriminate.
Qed.

(** What the script does with the two runs. *)
Lemma format_main_unfold (ns : FormatNamespace) :
  let args := FormatArgs_init (Some ns) in
  let changed := split_changed_files (ns_changed_files ns) in
  format_main environ subprocess_run decode_utf8 set_iter ns
  = match run ruff changed args with
    | (Done okr, lr) =>
        match run clang changed args with
        | (Done okc, lc) =>
            let failed := ((if okr then [] else [ruff_name])
                           ++ (if okc then [] else [clang_name]))%list in
            if nonempty failed
            then (Exit 1, (lr ++ lc
                           ++ [Out.line ("error: some formatters failed: "
                                         ++ Str.join " " failed)])%list)
            else (Done tt, (lr ++ lc)%list)
        | (Exit code, lc) => (Exit code, (lr ++ lc)%list)
        | (Uncaught e, lc) => (Uncaught e, (lr ++ lc)%list)
        end
    | (Exit code, lr) => (Exit code, lr)
    | (Uncaught e, lr) => (Uncaught e, lr)
    end.
Proof using Type.
  intros args changed.
  unfold format_main, ALL_FORMATTERS. rewrite formatters_loop_two.
  change (changed_files (FormatArgs_init (Some ns))) with (ns_changed_files ns).
  fold args changed ruff clang.
  destruct (run ruff changed args) as [[okr|cr|er] lr]; try reflexivity.
  destruct (run clang changed args) as [[okc|cc|ec] lc]; try reflexivity.
  destruct okr, okc; cbn; rewrite <- ?app_assoc, ?app_nil_r; reflexivity.
Qed.

End FormatScriptFacts.

(** Once the command line is parsed, the script runs the Python
    formatter first and, when that run ends without an exception, the
    native-code formatter, whatever the first run reported: it prints
    what the runs print, and when a run failed it adds one line that
    names the failed formatters in this order and ends with status 1.
    An exception in a run (the tool cannot be started, its output is
    no UTF-8) ends the script there: after one in the first run the
    second formatter is not run. *)
Theorem format_main_sequence (environ : gmap string string)
    (subprocess_run : list string -> result CompletedProcess)
    (decode_utf8 : list byte -> result string)
    (set_iter : gset string -> list string) (ns : FormatNamespace) :
  let args := FormatArgs_init (Some ns) in
  let changed := split_changed_files (ns_changed_files ns) in
  let r := run (RuffFormatHelper environ subprocess_run decode_utf8) changed args in
  let c := run (ClangFormatHelper environ subprocess_run decode_utf8 set_iter)
             changed args in
  let main := format_main environ subprocess_run decode_utf8 set_iter ns in
  (forall e, fst r = Uncaught e -> main = (Uncaught e, snd r))
  /\ (forall okr e, fst r = Done okr -> fst c = Uncaught e ->
        main = (Uncaught e, (snd r ++ snd c)%list))
  /\ (fst r = Done true -> fst c = Done true -> main = (Done tt, (snd r ++ snd c)%list))
  /\ (fst r = Done false -> fst c = Done true ->
      main = (Exit 1, (snd r ++ snd c
                       ++ [Out.line "error: some formatters failed: ruff"])%list))
  /\ (fst r = Done true -> fst c = Done false ->
      main = (Exit 1, (snd r ++ snd c
                       ++ [Out.line "error: some formatters failed: clang-format"])%list))
  /\ (fst r = Done false -> fst c = Done false ->
      main = (Exit 1, (snd r ++ snd c
                       ++ [Out.line "error: some formatters failed: ruff clang-format"])%list)).
Proof.
  intros args changed r c main.
  pose proof (format_main_unfold environ subprocess_run decode_utf8 set_iter ns) as H.
  cbv zeta in H. fold args changed in H. fold r c in H. fold main in H. rewrite H.
  destruct r as [xr lr], c as [xc lc]. cbn [fst snd].
  repeat split.
  - intros e ->. reflexivity.
  - intros okr e -> ->. reflexivity.
  - intros -> ->. reflexivity.
  - intros -> ->. reflexivity.
  - intros -> ->. reflexivity.
  - intros -> ->. reflexivity.
Qed.

Lemma format_main_sequence_witness :
  fst (format_main ∅ tool_diff utf8_decode elements demo_format_ns) = Exit 1
  /\ format_main ∅ tool_missing utf8_decode elements demo_format_ns
     = (Uncaught OSError,
        [Out.line "Running: ruff format --check --diff --config ruff.toml -- x.py"]).
Proof.
  split.
  - rewrite (proj2 (proj2 (proj2 (proj2 (proj2
               (format_main_sequence ∅ tool_diff utf8_decode elements demo_format_ns))))));
      reflexivity.
  - rewrite (proj1 (format_main_sequence ∅ tool_missing utf8_decode elements
                      demo_format_ns) OSError);
      reflexivity.
Defined.

(** When the command line is parsed, the status of the script is 0
    exactly when each formatter either has no file of its own among the
    changed files or its tool is started, ends with exit code 0 and
    the output that the helper decodes is UTF-8 (the standard error;
    for the Python formatter the standard output too); otherwise the
    status is 1. *)
Theorem format_script_status (environ : gmap string string)
    (subprocess_run : list string -> result CompletedProcess)
    (decode_utf8 : list byte -> result string)
    (set_iter : gset string -> list string)
    (parse_format_args : list string -> Proc.t FormatNamespace)
    (argv : list string) (ns : FormatNamespace) (o : list string) :
  parse_format_args argv = (Done ns, o) ->
  let args := FormatArgs_init (Some ns) in
  let changed := split_changed_files (ns_changed_files ns) in
  let py_files := ruff_filter_changed_files changed in
  let cpp_files := clang_filter_changed_files changed in
  let status :=
    exit_status (fst (format_script environ subprocess_run decode_utf8 set_iter
                        parse_format_args argv)) in
  (status = 0%Z
   <-> (py_files = []
        \/ clean_run subprocess_run decode_utf8 true (ruff_cmd environ py_files args))
       /\ (cpp_files = []
           \/ clean_run subprocess_run decode_utf8 false
                (clang_cf_cmd environ set_iter cpp_files args)))
  /\ (status = 0%Z \/ status = 1%Z).
Proof.
  intros Hparse args changed py_files cpp_files status.
  pose proof (format_main_unfold environ subprocess_run decode_utf8 set_iter ns) as H.
  cbv zeta in H. fold args changed in H.
  pose proof (ruff_run_ends environ subprocess_run decode_utf8 changed args eq_refl)
    as [Hr Hrx].
  pose proof (clang_run_ends environ subprocess_run decode_utf8 set_iter changed args)
    as [Hc Hcx].
  fold py_files in Hr. fold cpp_files in Hc.
  subst status. unfold format_script. rewrite Hparse. cbn [Proc.bind].
  rewrite H. clear H.
  destruct (run (RuffFormatHelper environ subprocess_run decode_utf8) changed args)
    as [[okr|cr|er] lr]; cbn [fst] in *.
  - destruct (run (ClangFormatHelper environ subprocess_run decode_utf8 set_iter)
                changed args) as [[okc|cc|ec] lc]; cbn [fst] in *.
    + destruct okr, okc; cbn; (split; [|tauto]); split;
        try discriminate; try tauto;
        intros [H1 H2]; try (apply Hr in H1; discriminate H1);
        apply Hc in H2; discriminate H2.
    + now destruct (Hcx cc).
    + cbn. split; [|tauto]. split; [discriminate|].
      intros [_ H2]. apply Hc in H2. discriminate H2.
  - now destruct (Hrx cr).
  - cbn. split; [|tauto]. split; [discriminate|].
    intros [H1 _]. apply Hr in H1. discriminate H1.
Qed.

Lemma format_script_status_witness :
  exit_status (fst (format_script ∅ tool_clean utf8_decode elements parse_format_demo
                      demo_format_argv)) = 0%Z.
Proof.
  apply (format_script_status ∅ tool_clean utf8_decode elements parse_format_demo
           demo_format_argv demo_format_ns [] eq_refl).
  split; right; exists {| returncode := 0; stdout := []; stderr := [] |}, "";
    repeat split; eauto.
Defined.

Lemma filter_all_false {A : Type} (f : A -> bool) (l : list A) :
  (forall x, In x l -> f x = false) -> List.filter f l = [].
Proof.
  induction l as [|x l IH]; intros H; [reflexivity|].
  simpl. rewrite (H x) by now left. apply IH. intros y Hy. apply H. now right.
Qed.

(** When no changed file belongs to either formatter (in particular
    when [--changed-files] is absent or empty), the script ends with
    status 0 and has printed nothing, whatever the tools would do. *)
Theorem format_main_nothing_selected (environ : gmap string string)
    (subprocess_run : list string -> result CompletedProcess)
    (decode_utf8 : list byte -> result string)
    (set_iter : gset string -> list string) (ns : FormatNamespace) :
  (forall path, In path (split_changed_files (ns_changed_files ns)) ->
                native_selected path = false /\ python_selected path = false) ->
  format_main environ subprocess_run decode_utf8 set_iter ns = (Done tt, []).
Proof.
  intros H.
  pose proof (format_main_unfold environ subprocess_run decode_utf8 set_iter ns) as Hm.
  cbv zeta in Hm. rewrite Hm.
  rewrite ruff_run_skip, clang_run_skip.
  - reflexivity.
  - unfold clang_filter_changed_files. rewrite clang_filter_loop_acc.
    apply filter_all_false. intros p Hp. now apply H.
  - unfold ruff_filter_changed_files. rewrite ruff_filter_loop_acc.
    apply filter_all_false. intros p Hp. now apply H.
Qed.

Lemma format_main_nothing_selected_witness :
  format_main ∅ tool_silent_failure utf8_decode elements
    {| ns_start_rev := "a"; ns_end_rev := "b";
       ns_changed_files := None; ns_py_style_config := "ruff.toml" |}
  = (Done tt, [])
  /\ format_main ∅ tool_silent_failure utf8_decode elements
       {| ns_start_rev := "a"; ns_end_rev := "b";
          ns_changed_files := Some "README.md,,docs/a.rst";
          ns_py_style_config := "ruff.toml" |}
     = (Done tt, []).
Proof.
  split; apply format_main_nothing_selected.
  - intros path [].
  - intros path [<-|[<-|[<-|[]]]]; split; reflexivity.
Defined.

(** No path belongs to both formatters: a changed file is handed to
    at most one of the two tools. *)
Theorem filters_disjoint (changed : list string) (path : string) :
  In path (clang_filter_changed_files changed) ->
  ~ In path (ruff_filter_changed_files changed).
Proof.
  unfold clang_filter_changed_files, ruff_filter_changed_files.
  rewrite clang_filter_loop_acc, ruff_filter_loop_acc. cbn [app].
  rewrite !filter_In. intros [_ Hn] [_ Hp].
  unfold python_selected in Hp. apply String.eqb_eq in Hp.
  unfold native_selected in Hn. rewrite Hp in Hn. discriminate Hn.
Qed.

Lemma filters_disjoint_witness :
  ~ In "a.cpp" (ruff_filter_changed_files ["a.cpp"; "b.py"]).
Proof. apply (filters_disjoint ["a.cpp"; "b.py"] "a.cpp"). now left. Defined.

(** ** The value of [--extensions] *)

Lemma split_join (sep : ascii) (l : list string) :
  l <> [] ->
  Forall (fun w => Str.all (fun c => negb (Ascii.eqb c sep)) w = true) l ->
  Str.split sep (Str.join (String sep "") l) = l.
Proof.
  induction l as [|w l IH]; [congruence|]. intros _ H.
  inversion H as [|? ? Hw Hl]; subst. destruct l as [|w' l'].
  - simpl. now apply split_free.
  - change (Str.join (String sep "") (w :: w' :: l'))
      with (w ++ String sep (Str.join (String sep "") (w' :: l'))).
    rewrite split_app_sep, (split_free _ _ Hw), IH; [reflexivity | discriminate | assumption].
Qed.

Lemma selected_extension (path : string) :
  native_selected path = true -> In (Str.strip_char "." (ext path)) passed_extensions.
Proof.
  unfold native_selected. intros H. apply orb_true_iff in H as [H|H].
  - apply in_tuple_In in H. unfold clang_extensions in H. simpl in H.
    repeat (destruct H as [<-|H]; [vm_compute; tauto|]). contradiction.
  - apply andb_true_iff in H as [H _]. apply String.eqb_eq in H. rewrite H.
    vm_compute. tauto.
Qed.

Lemma passed_extension_no_comma (x : string) :
  In x passed_extensions -> Str.all (fun c => negb (Ascii.eqb c ",")) x = true.
Proof.
  unfold passed_extensions. simpl.
  intros H. repeat (destruct H as [<-|H]; [reflexivity|]). contradiction.
Qed.

(** The value that follows [--extensions] lists, separated by commas
    and each once, exactly the extensions (without the dot) of the
    selected files; every entry is one of the ten extensions of the
    allow-list or the empty extension. *)
Theorem extensions_arg_entries (set_iter : gset string -> list string)
    (changed : list string) :
  (forall s, set_iter s ≡ₚ elements s) ->
  clang_filter_changed_files changed <> [] ->
  let cpp_files := clang_filter_changed_files changed in
  let entries := Str.split "," (extensions_arg set_iter cpp_files) in
  NoDup entries
  /\ (forall x, In x entries
                <-> exists file, In file cpp_files /\ x = Str.strip_char "." (ext file))
  /\ (forall x, In x entries -> In x passed_extensions).
Proof.
  intros Hperm Hne cpp_files entries.
  assert (Hsel : forall file, In file cpp_files -> native_selected file = true).
  { intros file Hf. unfold cpp_files, clang_filter_changed_files in Hf.
    rewrite clang_filter_loop_acc in Hf. cbn [app] in Hf.
    now apply filter_In in Hf. }
  fold cpp_files in Hne. clearbody cpp_files.
  set (s := extensions_loop cpp_files ∅).
  assert (Hin : forall x, In x (set_iter s)
                  <-> exists file, In file cpp_files /\ x = Str.strip_char "." (ext file)).
  { intros x. rewrite <- list_elem_of_In, (Hperm s), elem_of_elements.
    unfold s. rewrite extensions_loop_elem. split.
    - intros [H|H]; [now apply not_elem_of_empty in H | exact H].
    - intros H. now right. }
  assert (Hallowed : forall x, In x (set_iter s) -> In x passed_extensions).
  { intros x Hx. apply Hin in Hx as (file & Hf & ->).
    now apply selected_extension, Hsel. }
  assert (Hentries : entries = set_iter s).
  { unfold entries, extensions_arg. fold s. apply split_join.
    - destruct cpp_files as [|f fs]; [congruence|].
      intros Hnil. assert (Hx : In (Str.strip_char "." (ext f)) (set_iter s)).
      { apply Hin. exists f. split; [now left | reflexivity]. }
      rewrite Hnil in Hx. contradiction.
    - apply Forall_forall. intros x Hx.
      now apply passed_extension_no_comma, Hallowed. }
  rewrite Hentries. repeat split.
  - rewrite (Hperm s). apply NoDup_ListNoDup, NoDup_elements.
  - now apply Hin.
  - now apply Hin.
  - apply Hallowed.
Qed.

Lemma extensions_arg_entries_witness :
  NoDup (Str.split "," (extensions_arg elements
                          (clang_filter_changed_files ["a.cpp"; "b.cpp"; "c.h"; "d.py"]))).
Proof.
  apply (extensions_arg_entries elements ["a.cpp"; "b.cpp"; "c.h"; "d.py"]).
  - intros s. reflexivity.
  - discriminate.
Defined.

(** ** typing_helper.py *)




Section TypingFacts.

Variable environ : gmap string string.
Variable subprocess_run : list string -> result CompletedProcess.
Variable decode_utf8 : list byte -> result string.

(** How [typing_run] ends when there are files to check. *)
Lemma typing_run_fst (changed : list string) (args : TypingArgs) :
  typing_verbose args = true ->
  mypy_filter_changed_files changed <> [] ->
  fst (typing_run environ subprocess_run decode_utf8 changed args)
  = match subprocess_run (mypy_cmd environ (mypy_filter_changed_files changed)) with
    | Raise e => Uncaught e
    | Ok proc =>
        match decode_utf8 (stderr proc) with
        | Raise e => Uncaught e
        | Ok _ =>
            match decode_utf8 (stdout proc) with
            | Raise e => Uncaught e
            | Ok _ => Done (returncode proc =? 0)%Z
            end
        end
    end.
Proof using Type.
  intros Hv Hne. unfold typing_run.
  destruct (mypy_filter_changed_files changed) as [|f fs]; [congruence|].
  cbn [nonempty negb]. rewrite Hv. proc_step.
  destruct (subprocess_run (mypy_cmd environ (f :: fs))) as [proc|e]; proc_step;
    [|reflexivity].
  destruct (decode_utf8 (stderr proc)) as [err|e]; proc_step; [|reflexivity].
  destruct (decode_utf8 (stdout proc)) as [d|e];
    destruct (returncode proc =? 0)%Z; reflexivity.
Qed.

(** How [TypingHelper.run] can end: never through [sys.exit], and
    with success exactly when no file is left to check or the run of
    the type checker is clean. *)
Lemma typing_helper_run_ends (changed : list string) (args : TypingArgs) :
  typing_verbose args = true ->
  (fst (typing_helper_run environ subprocess_run decode_utf8 changed args) = Done true
   <-> mypy_filter_changed_files changed = []
       \/ clean_run subprocess_run decode_utf8 true
            (mypy_cmd environ (mypy_filter_changed_files changed)))
  /\ (fst (typing_helper_run environ subprocess_run decode_utf8 changed args) = Done true
      \/ fst (typing_helper_run environ subprocess_run decode_utf8 changed args) = Done false
      \/ exists e,
           fst (typing_helper_run environ subprocess_run decode_utf8 changed args)
           = Uncaught e).
Proof using Type.
  intros Hv.
  assert (Hrun : fst (typing_helper_run environ subprocess_run decode_utf8 changed args)
                 = fst (typing_run environ subprocess_run decode_utf8 changed args)).
  { unfold typing_helper_run, Proc.bind.
    now destruct (typing_run environ subprocess_run decode_utf8 changed args)
      as [[[]|code|e] log]. }
  rewrite Hrun. clear Hrun.
  destruct (mypy_filter_changed_files changed) as [|f fs] eqn:E.
  - unfold typing_run. rewrite E. cbn. split; [tauto | now left].
  - rewrite typing_run_fst by (try assumption; rewrite E; discriminate).
    rewrite E. unfold clean_run.
    destruct (subprocess_run (mypy_cmd environ (f :: fs))) as [proc|e] eqn:Hp.
    + destruct (decode_utf8 (stderr proc)) as [err|e] eqn:Herr.
      * destruct (decode_utf8 (stdout proc)) as [d|e] eqn:Hout.
        -- destruct (returncode proc =? 0)%Z eqn:Hrc.
           ++ split; [|now left]. split; [|reflexivity].
              intros _. right. exists proc, err.
              repeat split; [now apply Z.eqb_eq | assumption | eauto].
           ++ apply Z.eqb_neq in Hrc. split; [|right; now left]. split; [discriminate|].
              intros [H|(proc' & err' & Hp' & Hz & _)]; [discriminate H|].
              injection Hp' as <-. contradiction.
        -- split; [|right; right; eauto]. split; [discriminate|].
           intros [H|(proc' & err' & Hp' & _ & _ & Ho)]; [discriminate H|].
           injection Hp' as <-. destruct (Ho eq_refl) as [o' Ho'].
           rewrite Ho' in Hout. discriminate Hout.
      * split; [|right; right; eauto]. split; [discriminate|].
        intros [H|(proc' & err' & Hp' & _ & He & _)]; [discriminate H|].
        injection Hp' as <-. rewrite He in Herr. discriminate Herr.
    + split; [|right; right; eauto]. split; [discriminate|].
      intros [H|(proc' & err' & Hp' & _)]; discriminate.
Qed.

End TypingFacts.

(** When the command line is parsed, the script of the type checker
    ends with status 0 exactly when the probe of the tool succeeds and
    then either no Python file is left to check or the tool is started,
    ends with exit code 0 and its two streams are UTF-8; otherwise
    with status 1.  A failed probe ends the script with its one error
    line before the changed files are looked at, even when there is no
    Python file among them. *)
Theorem typing_script_status (environ : gmap string string)
    (subprocess_run : list string -> result CompletedProcess)
    (decode_utf8 : list byte -> result string)
    (parse_typing_args : list string -> Proc.t (option string))
    (argv : list string) (changed_files : option string) (o : list string) :
  parse_typing_args argv = (Done changed_files, o) ->
  let py_files :=
    mypy_filter_changed_files
      (List.filter (fun f => negb (String.eqb f lit_cfg))
         (split_changed_files changed_files)) in
  let script :=
    typing_script environ subprocess_run decode_utf8 parse_typing_args argv in
  (exit_status (fst script) = 0%Z
   <-> mypy_has_tool environ subprocess_run = true
       /\ (py_files = []
           \/ clean_run subprocess_run decode_utf8 true (mypy_cmd environ py_files)))
  /\ (exit_status (fst script) = 0%Z \/ exit_status (fst script) = 1%Z)
  /\ (mypy_has_tool environ subprocess_run = false ->
      script
      = (Exit 1,
         (o ++ [Out.line "error: mypy is not installed or not found in PATH"])%list)).
Proof.
  intros Hparse py_files script. subst script. unfold typing_script.
  rewrite Hparse. cbn [Proc.bind]. unfold typing_main.
  cbn [TypingArgs_init typing_changed_files].
  set (changed := List.filter (fun f => negb (String.eqb f lit_cfg))
                    (split_changed_files changed_files)).
  set (args := {| typing_changed_files := changed_files; typing_verbose := true |}).
  pose proof (typing_helper_run_ends environ subprocess_run decode_utf8 changed args
                eq_refl) as [Hok Hends].
  fold py_files in Hok.
  destruct (mypy_has_tool environ subprocess_run); cbn [negb].
  - destruct (typing_helper_run environ subprocess_run decode_utf8 changed args)
      as [[ok|code|e] log]; cbn [fst] in *.
    + destruct ok; cbn; repeat split; auto; try discriminate.
      * now apply Hok.
      * intros [_ H]. apply Hok in H. discriminate H.
    + destruct Hends as [H|[H|[e H]]]; discriminate H.
    + cbn. repeat split; auto; try discriminate.
      intros [_ H]. apply Hok in H. discriminate H.
  - cbn. repeat split; auto; try discriminate. intros [H _]. discriminate H.
Qed.

Lemma typing_script_status_witness :
  typing_script ∅ tool_missing utf8_decode parse_typing_demo ["--changed-files"; "a.txt"]
  = (Exit 1, [Out.line "error: mypy is not installed or not found in PATH"]).
Proof.
  apply (typing_script_status ∅ tool_missing utf8_decode parse_typing_demo
           ["--changed-files"; "a.txt"] (Some "a.txt") [] eq_refl).
  reflexivity.
Defined.
